(** * ULTRADATA: column profiling and exact duplicate detection

    A shallow embedding of [core/processador.py] (class
    [ProcessadorULTRADATA]) and the properties of its two static methods,
    [encontrar_duplicidades] and [analisar_coluna].

    The pandas [DataFrame] the methods receive is modelled row-major: an
    ordered list of column labels and an ordered list of records, each record
    a finite map from column label to a nullable scalar.  The methods are
    written in a small state-and-exception monad whose state is the caller's
    [DataFrame] object, so that "raises" and "does not mutate its argument"
    are statements about the model and not about its type.

    Names are those of the code: the identifier column is ["sku"], the exact
    method is [metodo = "sku"], the key-column list is [colunas], and the
    profile is the dict with keys [total], [preenchidos], [vazios],
    [taxa_preenchimento], [valores_unicos] and [exemplos].  The fill rate is
    computed as Python computes it, in IEEE 754 binary64 ([SpecFloat]). *)

From Stdlib Require Import ZArith DecimalString.
From Stdlib.Floats Require Import SpecFloat.
From stdpp Require Import gmap strings list.

Local Open Scope string_scope.
Local Open Scope nat_scope.

(** ** Data model *)

(** A non-null cell.  Integer and text cells are what the catalogue holds
    (identifiers, names, categories). *)
Inductive scalar : Type :=
  | VInt (z : Z)
  | VStr (s : string).

#[global] Instance scalar_eq_dec : EqDecision scalar.
Proof. solve_decision. Defined.

(** A cell: [None] is the missing value (pandas [NaN] / [None]). *)
Abbreviation value := (option scalar).

(** A pandas [Series], by position. *)
Abbreviation Series := (list value).

(** A record of the table. *)
Abbreviation row := (gmap string value).

Record DataFrame : Type := mkDataFrame {
  columns : list string;   (* [df.columns] *)
  rows : list row          (* the records, in index order; [len(df)] of them *)
}.

(** The cell of record [r] under label [c]; a record that has no entry for a
    label of the frame holds the missing value there, as in a frame built
    from records. *)
Definition cell (c : string) (r : row) : value := default None (r !! c).

(** The cells under label [c], record by record. *)
Definition column (c : string) (df : DataFrame) : Series := cell c <$> rows df.

(** [pd.DataFrame()] : no column, no record. *)
Definition pd_DataFrame : DataFrame := mkDataFrame [] [].

(** ** Exceptions and the monad of the methods *)

Inductive exn : Type :=
  | KeyError (k : string)
  | ValueError
  | ZeroDivisionError.

Inductive outcome (A : Type) : Type :=
  | Returns (a : A)
  | Raises (e : exn).
Arguments Returns {A} a.
Arguments Raises {A} e.

(** A computation over the caller's [df]: it returns or raises, and hands
    back the frame object as it left it. *)
Definition py (A : Type) : Type := DataFrame → outcome A * DataFrame.

#[global] Instance py_ret : MRet py := λ A a df, (Returns a, df).

#[global] Instance py_bind : MBind py := λ A B f m df,
  match m df with
  | (Returns a, df') => f a df'
  | (Raises e, df') => (Raises e, df')
  end.

Definition raise {A : Type} (e : exn) : py A := λ df, (Raises e, df).

(** ** The pandas operations the methods call *)

Module pandas.

(** [df.columns] *)
Definition df_columns : py (list string) := λ df, (Returns (columns df), df).

(** [len(df)] *)
Definition df_len : py nat := λ df, (Returns (length (rows df)), df).

(** [df[c]] for a label [c]: the column as a Series; [KeyError] when the
    frame has no such column. *)
Definition df_getitem (c : string) : py Series := λ df,
  if bool_decide (c ∈ columns df)
  then (Returns (column c df), df)
  else (Raises (KeyError c), df).

(** [duplicated(keep=False)] on a sequence of keys: position [i] is marked
    when its key also occurs at another position ([before] holds the keys
    already passed, [after] the ones to come). *)
Fixpoint duplicated_from {K : Type} `{EqDecision K}
    (before after : list K) : list bool :=
  match after with
  | [] => []
  | k :: rest =>
      bool_decide (k ∈ before ∨ k ∈ rest) :: duplicated_from (k :: before) rest
  end.

Definition duplicated_keep_False {K : Type} `{EqDecision K}
    (keys : list K) : list bool := duplicated_from [] keys.

(** The first label of [subset] that the frame lacks. *)
Definition missing_label (subset cols : list string) : option string :=
  head (filter (λ c, c ∉ cols) subset).

(** [df.duplicated(subset=subset, keep=False)]: the key of a record is its
    cells under the labels of [subset]; [KeyError] on an unknown label. *)
Definition df_duplicated (subset : list string) : py (list bool) := λ df,
  match missing_label subset (columns df) with
  | Some c => (Raises (KeyError c), df)
  | None =>
      (Returns (duplicated_keep_False ((λ r, (λ c, cell c r) <$> subset) <$> rows df)), df)
  end.

(** Selection of the entries of [l] that [mask] marks. *)
Fixpoint select {A : Type} (l : list A) (mask : list bool) : list A :=
  match l, mask with
  | x :: l', b :: mask' => if b then x :: select l' mask' else select l' mask'
  | _, _ => []
  end.

(** [df[mask]] for a boolean mask: a new frame with the same columns and
    the marked records; [ValueError] when the mask has the wrong length. *)
Definition df_getitem_mask (mask : list bool) : py DataFrame := λ df,
  if bool_decide (length mask = length (rows df))
  then (Returns (mkDataFrame (columns df) (select (rows df) mask)), df)
  else (Raises ValueError, df).

(** [s.dropna()] *)
Definition dropna (s : Series) : Series := filter (λ v, v ≠ None) s.

(** [s.isna()] *)
Definition isna (s : Series) : list bool := (λ v, bool_decide (v = None)) <$> s.

(** [mask.sum()] : the number of [True] entries. *)
Definition sum (mask : list bool) : nat :=
  sum_list ((λ b : bool, if b then 1 else 0) <$> mask).

(** [s.nunique()] : the number of distinct values, missing ones left out. *)
Definition nunique (s : Series) : nat := length (remove_dups (dropna s)).

(** [s.head(n)] *)
Definition head (n : nat) (s : Series) : Series := take n s.

(** [s.tolist()] *)
Definition tolist (s : Series) : list value := s.

(** [s.empty] *)
Definition empty (s : Series) : bool := bool_decide (s = []).

End pandas.

(** ** Python numbers: true division, float product, [.1f] formatting *)

Module pyfloat.

(** Python floats are IEEE 754 binary64. *)
Definition prec : Z := 53.
Definition emax : Z := 1024.

(** The integer [z] as the float of value [z] (mantissa [|z|], exponent
    0); the operations below round the exact result of their operands'
    values, whatever the size of the mantissas. *)
Definition of_Z (z : Z) : spec_float :=
  match z with
  | Z0 => S754_zero false
  | Zpos p => S754_finite false p 0
  | Zneg p => S754_finite true p 0
  end.

(** [a / b] on Python ints: the correctly rounded quotient, and
    [ZeroDivisionError] for a zero divisor. *)
Definition int_truediv (a b : nat) : py spec_float :=
  if bool_decide (b = 0%nat) then raise ZeroDivisionError
  else mret (SFdiv prec emax (of_Z (Z.of_nat a)) (of_Z (Z.of_nat b))).

(** [x * y] on floats. *)
Definition mul (x y : spec_float) : spec_float := SFmul prec emax x y.

(** [num / den] rounded to the nearest integer, ties to even ([den > 0]). *)
Definition round_half_even (num den : Z) : Z :=
  let q := (num / den)%Z in
  let r := (num mod den)%Z in
  match (2 * r ?= den)%Z with
  | Lt => q
  | Gt => (q + 1)%Z
  | Eq => if Z.even q then q else (q + 1)%Z
  end.

(** The magnitude [m * 2^e] in tenths, correctly rounded. *)
Definition tenths (m : positive) (e : Z) : Z :=
  match e with
  | Zneg p => round_half_even (10 * Zpos m) (2 ^ Zpos p)
  | _ => (10 * Zpos m * 2 ^ e)%Z
  end.

(** A natural number in decimal. *)
Definition decimal (n : Z) : string :=
  NilZero.string_of_uint (N.to_uint (Z.to_N n)).

Definition sign (s : bool) : string := if s then "-" else "".

(** [format(x, ".1f")] *)
Definition format_1f (x : spec_float) : string :=
  match x with
  | S754_nan => "nan"
  | S754_infinity s => sign s +:+ "inf"
  | S754_zero s => sign s +:+ "0.0"
  | S754_finite s m e =>
      let t := tenths m e in
      sign s +:+ decimal (t / 10) +:+ "." +:+ decimal (t mod 10)
  end.

End pyfloat.

(** ** The methods of [ProcessadorULTRADATA] *)

(** The dict [analisar_coluna] returns, one field per key. *)
Record analise : Type := mkAnalise {
  total : nat;
  preenchidos : nat;
  vazios : nat;
  taxa_preenchimento : string;
  valores_unicos : nat;
  exemplos : list value
}.

Definition colunas_default : list string := ["sku"; "nome"].
Definition metodo_default : string := "sku".

(** [encontrar_duplicidades(df, colunas, metodo)].  The state of the
    computation is [df]. *)
Definition encontrar_duplicidades (colunas : list string) (metodo : string)
    : py DataFrame :=
  let duplicados := pd_DataFrame in
  cond ← (if bool_decide (metodo = "sku")
          then cols ← pandas.df_columns; mret (bool_decide ("sku" ∈ cols))
          else mret false);
  duplicados ← (if cond : bool
                then mask ← pandas.df_duplicated ["sku"];
                     pandas.df_getitem_mask mask
                else mret duplicados);
  mret duplicados.

(** [analisar_coluna(df, nome_coluna)]; [None] is Python's [None].  The
    entries of the dict are evaluated in the order they are written. *)
Definition analisar_coluna (nome_coluna : string) : py (option analise) :=
  cols ← pandas.df_columns;
  if negb (bool_decide (nome_coluna ∈ cols)) then mret None
  else
    serie ← pandas.df_getitem nome_coluna;
    let valores := pandas.dropna serie in
    n_total ← pandas.df_len;
    let n_preenchidos := length valores in
    serie' ← pandas.df_getitem nome_coluna;
    let n_vazios := pandas.sum (pandas.isna serie') in
    len_df ← pandas.df_len;
    fracao ← pyfloat.int_truediv (length valores) len_df;
    let taxa := pyfloat.format_1f (pyfloat.mul fracao (pyfloat.of_Z 100)) +:+ "%" in
    let n_unicos := pandas.nunique valores in
    let ex := if negb (pandas.empty valores)
              then pandas.tolist (pandas.head 5 valores) else [] in
    mret (Some (mkAnalise n_total n_preenchidos n_vazios taxa n_unicos ex)).

(** ** Vocabulary of the properties *)

(** How many entries of [keys] equal [k]. *)
Definition multiplicity {K : Type} `{EqDecision K} (k : K) (keys : list K) : nat :=
  length (filter (λ k', k' = k) keys).

(** The identifier column, as the methods read it. *)
Definition sku_column (df : DataFrame) : Series := column "sku" df.

(** The records whose identifier occurs at least twice in the frame. *)
Definition repeated_sku (df : DataFrame) (r : row) : Prop :=
  2 ≤ multiplicity (cell "sku" r) (sku_column df).

#[global] Instance repeated_sku_dec df r : Decision (repeated_sku df r).
Proof. unfold repeated_sku. apply _. Defined.

(** The text the method renders for [filled] values out of [len_df] records:
    the binary64 value of [filled / len_df * 100] under [.1f], then ["%"]. *)
Definition rendered_rate (filled len_df : nat) : string :=
  pyfloat.format_1f
    (pyfloat.mul (SFdiv pyfloat.prec pyfloat.emax
                    (pyfloat.of_Z (Z.of_nat filled)) (pyfloat.of_Z (Z.of_nat len_df)))
                 (pyfloat.of_Z 100)) +:+ "%".




(** ** Tables used as concrete inputs *)

Definition registro (sku : value) (nome : string) : row :=
  {[ "sku" := sku; "nome" := Some (VStr nome) ]}.

(** Three records, the first and the last with the same identifier. *)
Definition tabela_ids : DataFrame :=
  mkDataFrame ["sku"; "nome"]
    [ registro (Some (VInt 1)) "A";
      registro (Some (VInt 2)) "B";
      registro (Some (VInt 1)) "A2" ].

(** Two records with distinct identifiers and the same name. *)
Definition tabela_nomes : DataFrame :=
  mkDataFrame ["sku"; "nome"]
    [ registro (Some (VInt 1)) "A";
      registro (Some (VInt 2)) "A" ].

(** Two records without identifier and one with. *)
Definition tabela_nulos : DataFrame :=
  mkDataFrame ["sku"; "nome"]
    [ registro None "A";
      registro (Some (VInt 7)) "B";
      registro None "C" ].

(** One record without identifier among records with distinct ones. *)
Definition tabela_nulo_unico : DataFrame :=
  mkDataFrame ["sku"; "nome"]
    [ registro None "A";
      registro (Some (VInt 7)) "B";
      registro (Some (VInt 8)) "C" ].

(** A frame without identifier column. *)
Definition tabela_sem_sku : DataFrame :=
  mkDataFrame ["nome"] [ {[ "nome" := Some (VStr "A") ]}; {[ "nome" := Some (VStr "A") ]} ].

(** A frame with columns and no record. *)
Definition tabela_sem_registros : DataFrame :=
  mkDataFrame ["sku"; "nome"; "categoria"] [].

(** The column [categoria] of the profiling scenario. *)
Definition tabela_categoria : DataFrame :=
  mkDataFrame ["categoria"]
    [ {[ "categoria" := None ]};
      {[ "categoria" := Some (VStr "X") ]};
      {[ "categoria" := Some (VStr "X") ]};
      {[ "categoria" := None ]};
      {[ "categoria" := Some (VStr "Y") ]} ].

(** A computation that hands the frame back as it received it. *)
Definition preserves_df {A : Type} (m : py A) : Prop := ∀ df, (m df).2 = df.

(** ** The dashboard page

    [pages/1_..._Dashboard_de_Diagnóstico.py] is a Streamlit script.  Its
    calls to [st] are modelled by the widgets they put on the page, in
    order; the frame is the [df] of the session.  Modelled here: the opening
    of the page (lines 6-15), the overview block (lines 17-23) and the
    duplicates block (lines 46-61). *)

Module streamlit.

Inductive widget : Type :=
  | page_config (page_title layout : string)   (* [st.set_page_config] *)
  | title (text : string)
  | subheader (text : string)
  | warning (text : string)
  | success (text : string)
  | layout_columns (n : nat)                   (* [st.columns(n)] *)
  | metric (col : nat) (label : string) (value : Z) (delta : option string)
  | dataframe (data : DataFrame)
  | download_button (label data file_name mime : string).

End streamlit.

(** Operations on a frame that is a value of the script (not the session's
    [df]). *)
Module frames.

(** The restriction of a record to the labels listed. *)
Definition restrict (labels : list string) (r : row) : row :=
  filter (λ kv, kv.1 ∈ labels) r.

(** [d.empty] : one of the axes has length 0. *)
Definition empty (d : DataFrame) : bool :=
  bool_decide (rows d = [] ∨ columns d = []).

(** [len(d)] *)
Definition len (d : DataFrame) : nat := length (rows d).

(** [d[labels]] for a list of labels: the frame restricted to these columns,
    in the order listed; [KeyError] when a label is not a column. *)
Definition getitem_labels (labels : list string) (d : DataFrame) : outcome DataFrame :=
  match pandas.missing_label labels (columns d) with
  | Some c => Raises (KeyError c)
  | None =>
      Returns (mkDataFrame labels (restrict labels <$> rows d))
  end.

(** [d.head(n)] *)
Definition head (n : nat) (d : DataFrame) : DataFrame :=
  mkDataFrame (columns d) (take n (rows d)).

End frames.

(** [str(z)] on a Python int, as an f-string renders it. *)
Definition str_int (z : Z) : string :=
  if (z <? 0)%Z then "-" +:+ pyfloat.decimal (- z) else pyfloat.decimal z.

(** A run of the script: the session's frame and the widgets shown so far.
    An exception ends the run and leaves what was shown. *)
Record run : Type := mkRun {
  frame : DataFrame;
  shown : list streamlit.widget
}.

Definition page (A : Type) : Type := run → outcome A * run.

#[global] Instance page_ret : MRet page := λ A a s, (Returns a, s).

#[global] Instance page_bind : MBind page := λ A B f m s,
  match m s with
  | (Returns a, s') => f a s'
  | (Raises e, s') => (Raises e, s')
  end.

(** A pandas operation on the session's frame. *)
Definition on_df {A : Type} (m : py A) : page A := λ s,
  let '(o, df') := m (frame s) in (o, mkRun df' (shown s)).

(** The outcome of an operation on a value. *)
Definition of_outcome {A : Type} (o : outcome A) : page A := λ s, (o, s).

(** A call to [st] that puts one widget on the page. *)
Definition show (w : streamlit.widget) : page unit := λ s,
  (Returns tt, mkRun (frame s) (shown s ++ [w])).

(** How the script opens (lines 6-15): it stops after a warning, or goes on
    with the session's frame. *)
Inductive opening : Type :=
  | stopped (on_page : list streamlit.widget)              (* [st.stop()] *)
  | loaded (on_page : list streamlit.widget) (df : DataFrame).

Definition page_header : list streamlit.widget :=
  [ streamlit.page_config "Dashboard - ULTRADATA" "wide";
    streamlit.title "📊 Dashboard de Diagnóstico da Base" ].

Definition no_data_warning : streamlit.widget :=
  streamlit.warning "⚠️ Nenhum dado carregado. Vá para a página 'Upload' primeiro.".

Definition open_page (session_state : gmap string DataFrame) : opening :=
  match session_state !! "df" with
  | None => stopped (page_header ++ [no_data_warning])
  | Some df =>
      if frames.empty df
      then stopped (page_header ++ [no_data_warning])
      else loaded page_header df
  end.

(** The overview block (lines 17-23). *)
Definition visao_geral : page unit :=
  show (streamlit.subheader "Visão Geral da Base");;
  show (streamlit.layout_columns 3);;
  n ← on_df pandas.df_len;
  show (streamlit.metric 1 "Total de Itens" (Z.of_nat n) None);;
  cols ← on_df pandas.df_columns;
  show (streamlit.metric 2 "Colunas" (Z.of_nat (length cols)) None);;
  cols' ← on_df pandas.df_columns;
  sku_unicos ← (if bool_decide ("sku" ∈ cols')
                then serie ← on_df (pandas.df_getitem "sku");
                     mret (Z.of_nat (pandas.nunique serie))
                else mret 0%Z);
  n' ← on_df pandas.df_len;
  show (streamlit.metric 3 "SKUs Únicos" sku_unicos
          (Some (str_int (Z.of_nat n' - sku_unicos) +:+ " possíveis dups"))).

(** The widgets of the duplicates block, by the call that shows them. *)
Definition duplicates_subheader : streamlit.widget :=
  streamlit.subheader "🔎 Duplicidades por SKU".

Definition duplicates_warning (n : nat) : streamlit.widget :=
  streamlit.warning
    ("Encontrados " +:+ str_int (Z.of_nat n)
     +:+ " itens com SKU potencialmente duplicado.").

Definition duplicates_download (csv : string) : streamlit.widget :=
  streamlit.download_button "📥 Exportar Duplicidades para CSV"
    csv "duplicidades_sku.csv" "text/csv".

Definition no_duplicates_success : streamlit.widget :=
  streamlit.success "✅ Nenhuma duplicidade por SKU encontrada.".

(** The duplicates block (lines 46-61).  [to_csv d] stands for the bytes of
    [d.to_csv(index=False).encode('utf-8')]. *)
Definition duplicidades_por_sku (to_csv : DataFrame → string) : page unit :=
  show duplicates_subheader;;
  cols ← on_df pandas.df_columns;
  if bool_decide ("sku" ∈ cols) then
    duplicados_sku ← (mask ← on_df (pandas.df_duplicated ["sku"]);
                      on_df (pandas.df_getitem_mask mask));
    if negb (frames.empty duplicados_sku) then
      show (duplicates_warning (frames.len duplicados_sku));;
      tabela ← of_outcome (frames.getitem_labels ["sku"; "nome"; "categoria"] duplicados_sku);
      show (streamlit.dataframe (frames.head 20 tabela));;
      let csv := to_csv duplicados_sku in
      show (duplicates_download csv)
    else
      show no_duplicates_success
  else mret tt.

(** ** Multiplicity *)

Section multiplicity.
Context {K : Type} `{EqDecision K}.
Implicit Types (k : K) (l : list K).

Lemma multiplicity_nil k : multiplicity k [] = 0.
Proof. reflexivity. Qed.

Lemma multiplicity_cons k k' l :
  multiplicity k (k' :: l) = (if decide (k' = k) then 1 else 0) + multiplicity k l.
Proof.
  unfold multiplicity. rewrite filter_cons.
  destruct (decide (k' = k)); reflexivity.
Qed.

Lemma multiplicity_app k l1 l2 :
  multiplicity k (l1 ++ l2) = multiplicity k l1 + multiplicity k l2.
Proof. unfold multiplicity. rewrite filter_app, length_app. reflexivity. Qed.

Lemma multiplicity_pos k l : 0 < multiplicity k l ↔ k ∈ l.
Proof.
  induction l as [|k' l IH].
  - rewrite multiplicity_nil. split; [lia | intros Hin; inversion Hin].
  - rewrite multiplicity_cons, elem_of_cons.
    destruct (decide (k' = k)) as [->|Hne].
    + split; [auto | lia].
    + simpl. rewrite IH. split; [auto | intros [Heq|Hin]; congruence].
Qed.

End multiplicity.

Lemma multiplicity_fmap_inj {A K : Type} `{EqDecision A, EqDecision K}
    (f : A → K) (a : A) (l : list A) :
  Inj (=) (=) f → multiplicity (f a) (f <$> l) = multiplicity a l.
Proof.
  intros Hinj. induction l as [|a' l IH]; [reflexivity|].
  rewrite fmap_cons, !multiplicity_cons, IH.
  destruct (decide (f a' = f a)) as [Heq|Hne]; destruct (decide (a' = a)) as [Heq'|Hne'].
  - reflexivity.
  - exfalso. apply Hne'. apply Hinj. exact Heq.
  - exfalso. apply Hne. rewrite Heq'. reflexivity.
  - reflexivity.
Qed.

(** ** [duplicated] and boolean selection *)

Section duplicated.
Context {A K : Type} `{EqDecision K}.
Implicit Types (l : list A) (before : list K).

Lemma length_duplicated_from before (after : list K) :
  length (pandas.duplicated_from before after) = length after.
Proof.
  revert before. induction after as [|k rest IH]; intros before; simpl.
  - reflexivity.
  - rewrite IH. reflexivity.
Qed.

(** A key is marked exactly when it occurs twice among all the keys. *)
Lemma elsewhere_iff_multiplicity k before (rest : list K) :
  (k ∈ before ∨ k ∈ rest) ↔ 2 ≤ multiplicity k (before ++ k :: rest).
Proof.
  rewrite multiplicity_app, multiplicity_cons, decide_True by reflexivity.
  rewrite <- !multiplicity_pos. lia.
Qed.

(** Selecting with the mask of [duplicated] keeps the entries whose key
    occurs twice, in their order. *)
Lemma select_duplicated_from (key : A → K) before l :
  pandas.select l (pandas.duplicated_from before (key <$> l))
  = filter (λ x, 2 ≤ multiplicity (key x) (before ++ (key <$> l))) l.
Proof.
  revert before. induction l as [|x l IH]; intros before; [reflexivity|].
  rewrite fmap_cons. simpl pandas.duplicated_from. simpl pandas.select.
  rewrite IH, filter_cons.
  assert (Htail : filter (λ y, 2 ≤ multiplicity (key y) ((key x :: before) ++ (key <$> l))) l
                = filter (λ y, 2 ≤ multiplicity (key y) (before ++ key x :: (key <$> l))) l).
  { apply list_filter_iff. intros y. cbv beta.
    rewrite !multiplicity_app, !multiplicity_cons. lia. }
  rewrite Htail.
  destruct (decide (2 ≤ multiplicity (key x) (before ++ key x :: (key <$> l)))) as [Hdup|Hnodup].
  - rewrite bool_decide_eq_true_2 by (apply elsewhere_iff_multiplicity; exact Hdup).
    reflexivity.
  - rewrite bool_decide_eq_false_2
      by (intros Hin; apply Hnodup, elsewhere_iff_multiplicity; exact Hin).
    reflexivity.
Qed.

Lemma select_duplicated_keep_False (key : A → K) l :
  pandas.select l (pandas.duplicated_keep_False (key <$> l))
  = filter (λ x, 2 ≤ multiplicity (key x) (key <$> l)) l.
Proof. unfold pandas.duplicated_keep_False. apply select_duplicated_from. Qed.
End duplicated.

(** ** Running the monad *)

Lemma py_bind_returns {A B : Type} (m : py A) (f : A → py B) df a df' :
  m df = (Returns a, df') → (m ≫= f) df = f a df'.
Proof. intros Hm. unfold mbind, py_bind. rewrite Hm. reflexivity. Qed.

Lemma py_bind_raises {A B : Type} (m : py A) (f : A → py B) df e df' :
  m df = (Raises e, df') → (m ≫= f) df = (Raises e, df').
Proof. intros Hm. unfold mbind, py_bind. rewrite Hm. reflexivity. Qed.

Lemma py_ret_run {A : Type} (a : A) df : (mret a : py A) df = (Returns a, df).
Proof. reflexivity. Qed.

(** ** [encontrar_duplicidades] step by step *)

Lemma missing_label_sku cols :
  "sku" ∈ cols → pandas.missing_label ["sku"] cols = None.
Proof.
  intros Hin. unfold pandas.missing_label.
  rewrite filter_cons, decide_False by (intros Hnot; apply Hnot, Hin).
  reflexivity.
Qed.

Lemma df_duplicated_sku df :
  "sku" ∈ columns df →
  pandas.df_duplicated ["sku"] df
  = (Returns (pandas.duplicated_keep_False ((λ r, [cell "sku" r]) <$> rows df)), df).
Proof.
  intros Hin. unfold pandas.df_duplicated.
  rewrite missing_label_sku by exact Hin. reflexivity.
Qed.

Lemma df_getitem_mask_duplicated {K : Type} `{EqDecision K} (key : row → K) df :
  pandas.df_getitem_mask (pandas.duplicated_keep_False (key <$> rows df)) df
  = (Returns (mkDataFrame (columns df)
                (filter (λ r, 2 ≤ multiplicity (key r) (key <$> rows df)) (rows df))), df).
Proof.
  unfold pandas.df_getitem_mask.
  rewrite bool_decide_eq_true_2.
  - rewrite select_duplicated_keep_False. reflexivity.
  - unfold pandas.duplicated_keep_False.
    rewrite length_duplicated_from, length_fmap. reflexivity.
Qed.

Lemma singleton_key_multiplicity df r :
  multiplicity [cell "sku" r] ((λ r', [cell "sku" r']) <$> rows df)
  = multiplicity (cell "sku" r) (sku_column df).
Proof.
  unfold sku_column, column.
  change (λ r' : row, [cell "sku" r']) with ((λ v : value, [v]) ∘ cell "sku").
  rewrite (list_fmap_compose (cell "sku") (λ v, [v]) (rows df)).
  apply (multiplicity_fmap_inj (λ v : value, [v])).
  intros v1 v2 Heq. injection Heq as ->. reflexivity.
Qed.

(** The three ways through the method. *)
Lemma encontrar_duplicidades_sku colunas df :
  "sku" ∈ columns df →
  encontrar_duplicidades colunas "sku" df
  = (Returns (mkDataFrame (columns df) (filter (repeated_sku df) (rows df))), df).
Proof.
  intros Hin. unfold encontrar_duplicidades.
  rewrite bool_decide_eq_true_2 by reflexivity.
  erewrite py_bind_returns; cycle 1.
  { erewrite py_bind_returns by reflexivity. apply py_ret_run. }
  rewrite bool_decide_eq_true_2 by exact Hin.
  erewrite py_bind_returns; cycle 1.
  { erewrite py_bind_returns by (apply df_duplicated_sku; exact Hin).
    apply (df_getitem_mask_duplicated (λ r, [cell "sku" r])). }
  rewrite py_ret_run. do 2 f_equal. f_equal.
  apply list_filter_iff. intros r. unfold repeated_sku.
  rewrite singleton_key_multiplicity. reflexivity.
Qed.

Lemma encontrar_duplicidades_other_method colunas metodo df :
  metodo ≠ "sku" →
  encontrar_duplicidades colunas metodo df = (Returns pd_DataFrame, df).
Proof.
  intros Hne. unfold encontrar_duplicidades.
  rewrite bool_decide_eq_false_2 by exact Hne. reflexivity.
Qed.

Lemma encontrar_duplicidades_no_sku colunas metodo df :
  "sku" ∉ columns df →
  encontrar_duplicidades colunas metodo df = (Returns pd_DataFrame, df).
Proof.
  intros Hnot. destruct (decide (metodo = "sku")) as [->|Hne].
  - unfold encontrar_duplicidades.
    rewrite bool_decide_eq_true_2 by reflexivity.
    erewrite py_bind_returns; cycle 1.
    { erewrite py_bind_returns by reflexivity. apply py_ret_run. }
    rewrite bool_decide_eq_false_2 by exact Hnot. reflexivity.
  - apply encontrar_duplicidades_other_method. exact Hne.
Qed.

(** ** [analisar_coluna] step by step *)

Lemma df_getitem_present c df :
  c ∈ columns df → pandas.df_getitem c df = (Returns (column c df), df).
Proof.
  intros Hin. unfold pandas.df_getitem.
  rewrite bool_decide_eq_true_2 by exact Hin. reflexivity.
Qed.

Lemma analisar_coluna_absent c df :
  c ∉ columns df → analisar_coluna c df = (Returns None, df).
Proof.
  intros Hnot. unfold analisar_coluna.
  erewrite py_bind_returns by reflexivity.
  rewrite bool_decide_eq_false_2 by exact Hnot. reflexivity.
Qed.

(** On a frame without records the division of the fill rate raises. *)
Lemma analisar_coluna_no_rows c df :
  c ∈ columns df → rows df = [] →
  analisar_coluna c df = (Raises ZeroDivisionError, df).
Proof.
  intros Hin Hrows. unfold analisar_coluna.
  erewrite py_bind_returns by reflexivity.
  rewrite bool_decide_eq_true_2 by exact Hin. cbn [negb].
  erewrite py_bind_returns by (apply df_getitem_present; exact Hin).
  erewrite py_bind_returns by reflexivity.
  erewrite py_bind_returns by (apply df_getitem_present; exact Hin).
  erewrite py_bind_returns by reflexivity.
  erewrite py_bind_raises; [reflexivity|].
  unfold pyfloat.int_truediv. rewrite Hrows. reflexivity.
Qed.

(** On a frame with records the method returns the dict below. *)
Lemma analisar_coluna_rows c df :
  c ∈ columns df → rows df ≠ [] →
  analisar_coluna c df
  = (Returns (Some
       {| total := length (rows df);
          preenchidos := length (pandas.dropna (column c df));
          vazios := pandas.sum (pandas.isna (column c df));
          taxa_preenchimento :=
            rendered_rate (length (pandas.dropna (column c df))) (length (rows df));
          valores_unicos := pandas.nunique (pandas.dropna (column c df));
          exemplos :=
            if negb (pandas.empty (pandas.dropna (column c df)))
            then pandas.tolist (pandas.head 5 (pandas.dropna (column c df))) else [] |}), df).
Proof.
  intros Hin Hrows. unfold analisar_coluna.
  erewrite py_bind_returns by reflexivity.
  rewrite bool_decide_eq_true_2 by exact Hin. cbn [negb].
  erewrite py_bind_returns by (apply df_getitem_present; exact Hin).
  erewrite py_bind_returns by reflexivity.
  erewrite py_bind_returns by (apply df_getitem_present; exact Hin).
  erewrite py_bind_returns by reflexivity.
  erewrite py_bind_returns; [reflexivity|].
  unfold pyfloat.int_truediv.
  rewrite bool_decide_eq_false_2; [reflexivity|].
  intros Hlen. apply Hrows. apply length_zero_iff_nil. exact Hlen.
Qed.

(** ** Series: counting missing and present values *)

Section series.
Implicit Types (s : Series) (v : value).

Lemma sum_isna_multiplicity s : pandas.sum (pandas.isna s) = multiplicity None s.
Proof.
  unfold pandas.sum, pandas.isna.
  induction s as [|v s IH]; [reflexivity|].
  rewrite !fmap_cons, multiplicity_cons. cbn [sum_list]. rewrite IH.
  destruct v as [x|].
  - rewrite bool_decide_eq_false_2, decide_False by discriminate. reflexivity.
  - rewrite bool_decide_eq_true_2, decide_True by reflexivity. reflexivity.
Qed.

Lemma length_dropna s : length (pandas.dropna s) + multiplicity None s = length s.
Proof.
  unfold pandas.dropna.
  induction s as [|v s IH]; [reflexivity|].
  rewrite filter_cons, multiplicity_cons. destruct v as [x|].
  - rewrite decide_True, decide_False by discriminate. simpl. lia.
  - rewrite decide_False, decide_True by (try reflexivity; intros Hne; apply Hne; reflexivity).
    simpl. lia.
Qed.

Lemma dropna_not_null s : Forall (λ v, v ≠ None) (pandas.dropna s).
Proof.
  apply Forall_forall. intros v Hin.
  apply list_elem_of_filter in Hin. apply Hin.
Qed.

Lemma dropna_sublist s : pandas.dropna s `sublist_of` s.
Proof. apply sublist_filter. Qed.

(** [head(5).tolist() if not empty else []] is the first [min 5 n] values. *)
Lemma guarded_head s :
  (if negb (pandas.empty s) then pandas.tolist (pandas.head 5 s) else [])
  = take (min 5 (length s)) s.
Proof.
  unfold pandas.empty, pandas.tolist, pandas.head. destruct s as [|v s].
  - reflexivity.
  - rewrite bool_decide_eq_false_2 by discriminate. cbn [negb].
    destruct (decide (5 ≤ length (v :: s))) as [Hle|Hgt].
    + rewrite Nat.min_l by exact Hle. reflexivity.
    + rewrite Nat.min_r by lia. rewrite !take_ge by lia. reflexivity.
Qed.
End series.

(** ** The frame is only read *)

Lemma preserves_ret {A : Type} (a : A) : preserves_df (mret a : py A).
Proof. intros df. reflexivity. Qed.

Lemma preserves_raise {A : Type} (e : exn) : preserves_df (raise e : py A).
Proof. intros df. reflexivity. Qed.

Lemma preserves_bind {A B : Type} (m : py A) (f : A → py B) :
  preserves_df m → (∀ a, preserves_df (f a)) → preserves_df (m ≫= f).
Proof.
  intros Hm Hf df. unfold mbind, py_bind.
  specialize (Hm df). destruct (m df) as [[a|e] df']; simpl in Hm; subst df'.
  - apply Hf.
  - reflexivity.
Qed.

Lemma preserves_df_columns : preserves_df pandas.df_columns.
Proof. intros df. reflexivity. Qed.

Lemma preserves_df_len : preserves_df pandas.df_len.
Proof. intros df. reflexivity. Qed.

Lemma preserves_df_getitem c : preserves_df (pandas.df_getitem c).
Proof. intros df. unfold pandas.df_getitem. case_bool_decide; reflexivity. Qed.

Lemma preserves_df_duplicated subset : preserves_df (pandas.df_duplicated subset).
Proof.
  intros df. unfold pandas.df_duplicated.
  destruct (pandas.missing_label subset (columns df)); reflexivity.
Qed.

Lemma preserves_df_getitem_mask mask : preserves_df (pandas.df_getitem_mask mask).
Proof. intros df. unfold pandas.df_getitem_mask. case_bool_decide; reflexivity. Qed.

Lemma preserves_int_truediv a b : preserves_df (pyfloat.int_truediv a b).
Proof.
  unfold pyfloat.int_truediv. case_bool_decide;
    [apply preserves_raise | apply preserves_ret].
Qed.

Create HintDb frame discriminated.
#[global] Hint Resolve preserves_ret preserves_raise preserves_df_columns
  preserves_df_len preserves_df_getitem preserves_df_duplicated
  preserves_df_getitem_mask preserves_int_truediv : frame.

Ltac frame_step :=
  first
    [ apply preserves_bind; [|intros ?]
    | match goal with |- preserves_df (if ?b then _ else _) => destruct b end
    | solve [auto with frame] ].

Lemma preserves_encontrar_duplicidades colunas metodo :
  preserves_df (encontrar_duplicidades colunas metodo).
Proof. unfold encontrar_duplicidades. repeat frame_step. Qed.

Lemma preserves_analisar_coluna nome_coluna :
  preserves_df (analisar_coluna nome_coluna).
Proof. unfold analisar_coluna. repeat frame_step. Qed.

(** Calling a read-only computation again, on the frame the first call left,
    gives the first call's outcome. *)
Lemma preserves_df_again {A : Type} (m : py A) df :
  preserves_df m → m (m df).2 = m df.
Proof. intros Hm. rewrite Hm. reflexivity. Qed.

(** ** Binary64 rounding stays finite on a fill rate *)

Section binary64.
Local Open Scope Z_scope.

















End binary64.

(** ** The shape of a rendered rate *)











(** ** What a returned profile is *)

Lemma analisar_coluna_returns_inv c df p df' :
  c ∈ columns df →
  analisar_coluna c df = (Returns (Some p), df') →
  rows df ≠ [] ∧ df' = df ∧
  p = {| total := length (rows df);
         preenchidos := length (pandas.dropna (column c df));
         vazios := pandas.sum (pandas.isna (column c df));
         taxa_preenchimento :=
           rendered_rate (length (pandas.dropna (column c df))) (length (rows df));
         valores_unicos := pandas.nunique (pandas.dropna (column c df));
         exemplos :=
           if negb (pandas.empty (pandas.dropna (column c df)))
           then pandas.tolist (pandas.head 5 (pandas.dropna (column c df))) else [] |}.
Proof.
  intros Hin Hrun. destruct (decide (rows df = [])) as [Hnil|Hrows].
  - rewrite analisar_coluna_no_rows in Hrun by assumption. discriminate.
  - rewrite analisar_coluna_rows in Hrun by assumption.
    injection Hrun as Hp Hdf. split; [exact Hrows|].
    split; [symmetry; exact Hdf | symmetry; exact Hp].
Qed.

Lemma length_column c df : length (column c df) = length (rows df).
Proof. unfold column. apply length_fmap. Qed.

Lemma analisar_coluna_None_iff c df :
  (analisar_coluna c df).1 = Returns None ↔ c ∉ columns df.
Proof.
  split.
  - intros Hrun Hin. destruct (decide (rows df = [])) as [Hnil|Hrows].
    + rewrite analisar_coluna_no_rows in Hrun by assumption. discriminate.
    + rewrite analisar_coluna_rows in Hrun by assumption. discriminate.
  - intros Hnot. rewrite analisar_coluna_absent by exact Hnot. reflexivity.
Qed.

Lemma filter_none_intro {A : Type} (P : A → Prop) `{!∀ x, Decision (P x)} (l : list A) :
  (∀ x, x ∈ l → ¬ P x) → filter P l = [].
Proof.
  induction l as [|x l IH]; intros Hall; [reflexivity|].
  rewrite filter_cons, decide_False by (apply Hall; constructor).
  apply IH. intros y Hy. apply Hall. constructor. exact Hy.
Qed.

(** * The claims *)

Lemma elem_of_filter_repeated_sku df r :
  r ∈ filter (repeated_sku df) (rows df)
  ↔ r ∈ rows df ∧ 2 ≤ multiplicity (cell "sku" r) (sku_column df).
Proof. rewrite list_elem_of_filter. unfold repeated_sku. tauto. Qed.

(** C1.  With method ["sku"] (exact) on a frame that has the identifier
    column, [encontrar_duplicidades] returns the records whose identifier
    occurs at least twice in the frame: every occurrence, no record whose
    identifier occurs once, in the order of the frame.  In particular, on
    three records with identifiers 1, 2, 1 it returns the first and the third
    and not the second. *)
Theorem encontrar_duplicidades_exact df colunas :
  "sku" ∈ columns df →
  ∃ duplicados,
    encontrar_duplicidades colunas "sku" df = (Returns duplicados, df) ∧
    columns duplicados = columns df ∧
    rows duplicados = filter (repeated_sku df) (rows df) ∧
    rows duplicados `sublist_of` rows df ∧
    (∀ r, r ∈ rows duplicados
          ↔ r ∈ rows df ∧ 2 ≤ multiplicity (cell "sku" r) (sku_column df)) ∧
    (∀ r0 r1 r2,
       rows df = [r0; r1; r2] →
       cell "sku" r0 = Some (VInt 1) → cell "sku" r1 = Some (VInt 2) →
       cell "sku" r2 = Some (VInt 1) →
       rows duplicados = [r0; r2]).
Proof.
  intros Hin. eexists. split; [apply encontrar_duplicidades_sku; exact Hin|].
  cbn [columns rows]. split; [reflexivity|]. split; [reflexivity|].
  split; [apply sublist_filter|]. split; [apply elem_of_filter_repeated_sku|].
  intros r0 r1 r2 Hrows H0 H1 H2.
  assert (Hcol : sku_column df = [Some (VInt 1); Some (VInt 2); Some (VInt 1)]).
  { unfold sku_column, column. rewrite Hrows, !fmap_cons, H0, H1, H2. reflexivity. }
  rewrite (list_filter_iff (repeated_sku df)
             (λ r, 2 ≤ multiplicity (cell "sku" r)
                         [Some (VInt 1); Some (VInt 2); Some (VInt 1)]))
    by (intros r; unfold repeated_sku; rewrite Hcol; reflexivity).
  rewrite Hrows, !filter_cons, filter_nil, H0, H1, H2.
  reflexivity.
Qed.

Lemma encontrar_duplicidades_exact_witness :
  "sku" ∈ columns tabela_ids ∧
  ∃ duplicados,
    encontrar_duplicidades colunas_default metodo_default tabela_ids
    = (Returns duplicados, tabela_ids) ∧
    rows duplicados = [registro (Some (VInt 1)) "A"; registro (Some (VInt 1)) "A2"].
Proof.
  assert (Hin : "sku" ∈ columns tabela_ids) by constructor.
  split; [exact Hin|].
  destruct (encontrar_duplicidades_exact tabela_ids colunas_default Hin)
    as (duplicados & Hrun & _ & _ & _ & _ & Hscenario).
  exists duplicados. split; [exact Hrun|].
  apply (Hscenario _ (registro (Some (VInt 2)) "B") _); reflexivity.
Defined.

(** C6.  When the method is not ["sku"] (exact), or the frame has no
    identifier column, [encontrar_duplicidades] returns the empty frame of
    [pd.DataFrame()], whatever the key columns, and raises nothing. *)
Theorem encontrar_duplicidades_fallback df colunas metodo :
  metodo ≠ "sku" ∨ "sku" ∉ columns df →
  encontrar_duplicidades colunas metodo df = (Returns pd_DataFrame, df) ∧
  rows pd_DataFrame = [] ∧ columns pd_DataFrame = [].
Proof.
  intros Hcase. split; [|split; reflexivity].
  destruct Hcase as [Hmetodo|Hnosku].
  - apply encontrar_duplicidades_other_method. exact Hmetodo.
  - apply encontrar_duplicidades_no_sku. exact Hnosku.
Qed.

Lemma encontrar_duplicidades_fallback_witness :
  encontrar_duplicidades colunas_default "nome" tabela_ids
  = (Returns pd_DataFrame, tabela_ids) ∧
  encontrar_duplicidades colunas_default "sku" tabela_sem_sku
  = (Returns pd_DataFrame, tabela_sem_sku).
Proof.
  split.
  - apply (encontrar_duplicidades_fallback tabela_ids colunas_default "nome").
    left. discriminate.
  - apply (encontrar_duplicidades_fallback tabela_sem_sku colunas_default "sku").
    right. apply (bool_decide_eq_false_1 ("sku" ∈ columns tabela_sem_sku)). reflexivity.
Defined.

(** C7, as stated, fails: the first entry of [colunas] is not the key.  On
    two records with distinct identifiers and the same name, with ["nome"]
    listed first, every record repeats its ["nome"] and the method returns
    no record. *)
Lemma colunas_first_entry_is_not_the_key :
  ∃ duplicados,
    encontrar_duplicidades ["nome"; "sku"] "sku" tabela_nomes
    = (Returns duplicados, tabela_nomes) ∧
    rows duplicados = [] ∧
    filter (λ r, 2 ≤ multiplicity (cell "nome" r) (column "nome" tabela_nomes))
      (rows tabela_nomes) = rows tabela_nomes ∧
    rows duplicados
    ≠ filter (λ r, 2 ≤ multiplicity (cell "nome" r) (column "nome" tabela_nomes))
        (rows tabela_nomes).
Proof.
  eexists. split; [vm_compute; reflexivity|].
  split; [reflexivity|]. split; [vm_compute; reflexivity|].
  vm_compute. discriminate.
Qed.

(** C7, amended.  [encontrar_duplicidades] never reads [colunas]: with
    method ["sku"] the key is the column ["sku"], and the records returned
    are those whose ["sku"] occurs at least twice, whatever list of key
    columns is passed (empty, or with another column first). *)
Theorem encontrar_duplicidades_key_is_sku df colunas :
  "sku" ∈ columns df →
  ∃ duplicados,
    encontrar_duplicidades colunas "sku" df = (Returns duplicados, df) ∧
    rows duplicados = filter (repeated_sku df) (rows df) ∧
    ∀ colunas', encontrar_duplicidades colunas' "sku" df = (Returns duplicados, df).
Proof.
  intros Hin. eexists. split; [apply encontrar_duplicidades_sku; exact Hin|].
  split; [reflexivity|].
  intros colunas'. apply encontrar_duplicidades_sku. exact Hin.
Qed.

Lemma encontrar_duplicidades_key_is_sku_witness :
  ∃ duplicados,
    encontrar_duplicidades ["nome"; "sku"] "sku" tabela_ids = (Returns duplicados, tabela_ids) ∧
    encontrar_duplicidades [] "sku" tabela_ids = (Returns duplicados, tabela_ids).
Proof.
  destruct (encontrar_duplicidades_key_is_sku tabela_ids ["nome"; "sku"])
    as (duplicados & Hrun & _ & Hany).
  - constructor.
  - exists duplicados. split; [exact Hrun | apply Hany].
Defined.

(** C10.  Missing identifiers are compared as equal keys, like any other
    value.  With method ["sku"] on a frame that has the identifier column,
    [encontrar_duplicidades] returns exactly the records whose identifier is
    repeated; so when the identifier is missing in two records or more, every
    record without identifier is returned, as many times and in the same
    order as in the frame, and when it is missing in one record only, no
    record without identifier is returned.  A record without identifier is
    returned exactly when there are two of them or more. *)
Theorem null_identifiers_are_duplicates df colunas :
  "sku" ∈ columns df →
  ∃ duplicados,
    encontrar_duplicidades colunas "sku" df = (Returns duplicados, df) ∧
    rows duplicados = filter (repeated_sku df) (rows df) ∧
    (∀ r, r ∈ rows df → cell "sku" r = None →
       (r ∈ rows duplicados ↔ 2 ≤ multiplicity None (sku_column df))) ∧
    (2 ≤ multiplicity None (sku_column df) →
       (∀ r, r ∈ rows df → cell "sku" r = None → r ∈ rows duplicados) ∧
       filter (λ r, cell "sku" r = None) (rows duplicados)
       = filter (λ r, cell "sku" r = None) (rows df)) ∧
    (multiplicity None (sku_column df) < 2 →
       (∀ r, r ∈ rows duplicados → cell "sku" r ≠ None) ∧
       filter (λ r, cell "sku" r = None) (rows duplicados) = []).
Proof.
  intros Hin. eexists. split; [apply encontrar_duplicidades_sku; exact Hin|].
  cbn [rows]. split; [reflexivity|].
  assert (Hiff : ∀ r, r ∈ rows df → cell "sku" r = None →
            (r ∈ filter (repeated_sku df) (rows df)
             ↔ 2 ≤ multiplicity None (sku_column df))).
  { intros r Hr Hcell. rewrite elem_of_filter_repeated_sku, Hcell. tauto. }
  split; [exact Hiff|]. split.
  - intros Hnull. split.
    + intros r Hr Hcell. apply (Hiff r Hr Hcell). exact Hnull.
    + rewrite list_filter_filter. apply list_filter_iff. intros r.
      unfold repeated_sku. split; [tauto|].
      intros Hcell. split; [exact Hcell|]. rewrite Hcell. exact Hnull.
  - intros Hlone.
    assert (Hnone : ∀ r, r ∈ filter (repeated_sku df) (rows df) → cell "sku" r ≠ None).
    { intros r Hr Hcell. apply elem_of_filter_repeated_sku in Hr.
      destruct Hr as [_ Hrep]. rewrite Hcell in Hrep. lia. }
    split; [exact Hnone|].
    apply filter_none_intro. intros r Hr Hcell. exact (Hnone r Hr Hcell).
Qed.

Lemma null_identifiers_are_duplicates_witness :
  (∃ duplicados,
     encontrar_duplicidades colunas_default "sku" tabela_nulos
     = (Returns duplicados, tabela_nulos) ∧
     rows duplicados = [registro None "A"; registro None "C"]) ∧
  (∃ duplicados,
     encontrar_duplicidades colunas_default "sku" tabela_nulo_unico
     = (Returns duplicados, tabela_nulo_unico) ∧
     registro None "A" ∉ rows duplicados).
Proof.
  split.
  - destruct (null_identifiers_are_duplicates tabela_nulos colunas_default)
      as (duplicados & Hrun & Hrows & _); [constructor|].
    exists duplicados. split; [exact Hrun|].
    rewrite Hrows. vm_compute. reflexivity.
  - destruct (null_identifiers_are_duplicates tabela_nulo_unico colunas_default)
      as (duplicados & Hrun & _ & _ & _ & Hlone); [constructor|].
    exists duplicados. split; [exact Hrun|].
    destruct Hlone as [Hnone _]; [vm_compute; lia|].
    intros Hin. apply (Hnone _ Hin). reflexivity.
Defined.

(** C2.  On a frame without records, [analisar_coluna] on a column of the
    frame does not return: [len(valores)/len(df)] divides by zero and the
    method raises [ZeroDivisionError].  The claim asks for a guarded
    division and a defined result; the method has no such guard. *)
Theorem analisar_coluna_empty_table_raises df nome_coluna :
  nome_coluna ∈ columns df → rows df = [] →
  analisar_coluna nome_coluna df = (Raises ZeroDivisionError, df) ∧
  ∀ p, (analisar_coluna nome_coluna df).1 ≠ Returns p.
Proof.
  intros Hin Hrows. rewrite analisar_coluna_no_rows by assumption.
  split; [reflexivity | discriminate].
Qed.

Lemma analisar_coluna_empty_table_raises_witness :
  analisar_coluna "sku" tabela_sem_registros
  = (Raises ZeroDivisionError, tabela_sem_registros).
Proof.
  apply (analisar_coluna_empty_table_raises tabela_sem_registros "sku").
  - constructor.
  - reflexivity.
Defined.

(** C5 at the input where it fails: a frame with the column ["nome"] and no
    record.  The column is present, and the method neither returns a profile
    nor the sentinel: it raises. *)
Theorem analisar_coluna_present_column_raises :
  "nome" ∈ columns tabela_sem_registros ∧
  analisar_coluna "nome" tabela_sem_registros
  = (Raises ZeroDivisionError, tabela_sem_registros).
Proof.
  split.
  - apply (bool_decide_eq_true_1 ("nome" ∈ columns tabela_sem_registros)). reflexivity.
  - vm_compute. reflexivity.
Qed.

(** C3.  For a column of the frame, the profile [analisar_coluna] returns
    (it returns one whenever the frame has a record) has [total] equal to the
    number of records, [preenchidos] the number of non-missing cells of the
    column, [vazios] the number of missing cells counted from the [isna]
    mask, and the two add up to [total]. *)
Theorem analisar_coluna_counts df nome_coluna :
  nome_coluna ∈ columns df →
  (rows df ≠ [] → ∃ p, analisar_coluna nome_coluna df = (Returns (Some p), df)) ∧
  ∀ p df', analisar_coluna nome_coluna df = (Returns (Some p), df') →
    preenchidos p + vazios p = total p ∧
    total p = length (rows df) ∧
    preenchidos p = length (filter (λ v, v ≠ None) (column nome_coluna df)) ∧
    vazios p = pandas.sum (pandas.isna (column nome_coluna df)) ∧
    vazios p = multiplicity None (column nome_coluna df) ∧
    vazios p = total p - preenchidos p.
Proof.
  intros Hin. split.
  - intros Hrows. eexists. apply analisar_coluna_rows; assumption.
  - intros p df' Hrun.
    destruct (analisar_coluna_returns_inv _ _ _ _ Hin Hrun) as (_ & _ & ->).
    cbn [total preenchidos vazios].
    assert (Hlen := length_dropna (column nome_coluna df)).
    rewrite length_column in Hlen.
    rewrite sum_isna_multiplicity. unfold pandas.dropna in *.
    repeat split; try reflexivity; lia.
Qed.

Lemma analisar_coluna_counts_witness :
  ∃ p, analisar_coluna "categoria" tabela_categoria = (Returns (Some p), tabela_categoria) ∧
       preenchidos p + vazios p = total p ∧ total p = 5.
Proof.
  destruct (analisar_coluna_counts tabela_categoria "categoria") as [Hret Hcounts].
  - constructor.
  - destruct Hret as [p Hrun]; [discriminate|].
    exists p. split; [exact Hrun|].
    destruct (Hcounts p _ Hrun) as (Hsum & Htotal & _).
    split; [exact Hsum | exact Htotal].
Defined.

(** C8.  For a column of the frame, [exemplos] of the returned profile is
    the first [min 5 preenchidos] non-missing cells of the column in row
    order: at most five of them, none missing, and the empty list when the
    column has no value. *)
Theorem analisar_coluna_exemplos df nome_coluna :
  nome_coluna ∈ columns df →
  (rows df ≠ [] → ∃ p, analisar_coluna nome_coluna df = (Returns (Some p), df)) ∧
  ∀ p df', analisar_coluna nome_coluna df = (Returns (Some p), df') →
    exemplos p = take (min 5 (preenchidos p)) (filter (λ v, v ≠ None) (column nome_coluna df)) ∧
    length (exemplos p) = min 5 (preenchidos p) ∧
    length (exemplos p) ≤ 5 ∧
    exemplos p `prefix_of` filter (λ v, v ≠ None) (column nome_coluna df) ∧
    exemplos p `sublist_of` column nome_coluna df ∧
    Forall (λ v, v ≠ None) (exemplos p) ∧
    (filter (λ v, v ≠ None) (column nome_coluna df) = [] → exemplos p = []).
Proof.
  intros Hin. split.
  - intros Hrows. eexists. apply analisar_coluna_rows; assumption.
  - intros p df' Hrun.
    destruct (analisar_coluna_returns_inv _ _ _ _ Hin Hrun) as (_ & _ & ->).
    cbn [exemplos preenchidos]. rewrite guarded_head.
    set (valores := pandas.dropna (column nome_coluna df)).
    change (filter (λ v, v ≠ None) (column nome_coluna df)) with valores.
    split; [reflexivity|].
    split; [rewrite length_take; lia|].
    split; [rewrite length_take; lia|].
    split; [apply prefix_take|].
    split; [etransitivity; [apply sublist_take | apply dropna_sublist]|].
    split; [apply Forall_take, dropna_not_null|].
    intros ->. reflexivity.
Qed.

Lemma analisar_coluna_exemplos_witness :
  ∃ p, analisar_coluna "categoria" tabela_categoria = (Returns (Some p), tabela_categoria) ∧
       exemplos p = [Some (VStr "X"); Some (VStr "X"); Some (VStr "Y")].
Proof.
  destruct (analisar_coluna_exemplos tabela_categoria "categoria") as [Hret Hex].
  - constructor.
  - destruct Hret as [p Hrun]; [discriminate|].
    exists p. split; [exact Hrun|].
    destruct (Hex p _ Hrun) as (Hfirst & _). rewrite Hfirst.
    vm_compute in Hrun. injection Hrun as <-. reflexivity.
Defined.



(** C9.  Both methods only read the frame: the frame a call hands back is
    the frame it received, and a second call, on the frame the first call
    left, gives the outcome of the first; calling one method does not
    change what the other gives. *)
Theorem methods_are_pure df colunas metodo nome_coluna :
  (encontrar_duplicidades colunas metodo df).2 = df ∧
  encontrar_duplicidades colunas metodo (encontrar_duplicidades colunas metodo df).2
  = encontrar_duplicidades colunas metodo df ∧
  (analisar_coluna nome_coluna df).2 = df ∧
  analisar_coluna nome_coluna (analisar_coluna nome_coluna df).2
  = analisar_coluna nome_coluna df ∧
  analisar_coluna nome_coluna (encontrar_duplicidades colunas metodo df).2
  = analisar_coluna nome_coluna df ∧
  encontrar_duplicidades colunas metodo (analisar_coluna nome_coluna df).2
  = encontrar_duplicidades colunas metodo df.
Proof.
  assert (He := preserves_encontrar_duplicidades colunas metodo).
  assert (Ha := preserves_analisar_coluna nome_coluna).
  split; [apply He|].
  split; [apply preserves_df_again, He|].
  split; [apply Ha|].
  split; [apply preserves_df_again, Ha|].
  split; [rewrite He | rewrite Ha]; reflexivity.
Qed.

(** * Further properties of the methods *)

(** ** Keys, positions and repeated keys *)

Section keys.
Context {A K : Type} `{EqDecision K}.
Implicit Types (l : list A) (keys : list K) (k : K).

(** A key that occurs twice occurs at a second position. *)
Lemma multiplicity_other_position keys i k :
  keys !! i = Some k → 2 ≤ multiplicity k keys →
  ∃ j, j ≠ i ∧ keys !! j = Some k.
Proof.
  intros Hi Hmult.
  rewrite <- (take_drop_middle keys i k Hi) in Hmult.
  apply elsewhere_iff_multiplicity in Hmult. destruct Hmult as [Hin|Hin].
  - apply list_elem_of_lookup in Hin. destruct Hin as [j Hj].
    apply lookup_take_Some in Hj. destruct Hj as [Hj Hlt].
    exists j. split; [lia | exact Hj].
  - apply list_elem_of_lookup in Hin. destruct Hin as [j Hj].
    rewrite lookup_drop in Hj.
    exists (S i + j). split; [lia | exact Hj].
Qed.

Lemma NoDup_multiplicity keys : NoDup keys ↔ ∀ k, multiplicity k keys ≤ 1.
Proof.
  induction keys as [|k' keys IH].
  - split; [intros _ k; rewrite multiplicity_nil; lia | intros _; constructor].
  - rewrite NoDup_cons, IH. split.
    + intros [Hnotin Hall] k. rewrite multiplicity_cons.
      destruct (decide (k' = k)) as [->|Hne]; [|apply Hall].
      assert (Hz : ¬ 0 < multiplicity k keys) by (rewrite multiplicity_pos; exact Hnotin).
      lia.
    + intros Hall. split.
      * intros Hin. apply multiplicity_pos in Hin.
        specialize (Hall k'). rewrite multiplicity_cons, decide_True in Hall by reflexivity.
        lia.
      * intros k. specialize (Hall k). rewrite multiplicity_cons in Hall. lia.
Qed.

(** Keeping the entries whose key satisfies [Q] keeps all the occurrences
    of such a key, and none of the others. *)
Lemma multiplicity_filter_by_key (key : A → K) (Q : K → Prop)
    `{!∀ k, Decision (Q k)} l k :
  multiplicity k (key <$> filter (λ x, Q (key x)) l)
  = if decide (Q k) then multiplicity k (key <$> l) else 0.
Proof.
  induction l as [|x l IH].
  - destruct (decide (Q k)); reflexivity.
  - rewrite filter_cons, fmap_cons, multiplicity_cons.
    destruct (decide (Q (key x))) as [Hq|Hq].
    + rewrite fmap_cons, multiplicity_cons, IH.
      destruct (decide (key x = k)) as [<-|Hne]; [|reflexivity].
      destruct (decide (Q (key x))); [reflexivity | contradiction].
    + rewrite IH. destruct (decide (key x = k)) as [<-|Hne]; [|reflexivity].
      destruct (decide (Q (key x))); [contradiction | reflexivity].
Qed.

Lemma filter_all l (P : A → Prop) `{!∀ x, Decision (P x)} :
  Forall P l → filter P l = l.
Proof.
  induction 1 as [|x l Hx Hl IH]; [reflexivity|].
  rewrite filter_cons, decide_True, IH by exact Hx. reflexivity.
Qed.

Lemma filter_none l (P : A → Prop) `{!∀ x, Decision (P x)} :
  filter P l = [] ↔ Forall (λ x, ¬ P x) l.
Proof.
  induction l as [|x l IH].
  - split; [constructor | reflexivity].
  - rewrite filter_cons, Forall_cons. destruct (decide (P x)) as [Hx|Hx].
    + split; [discriminate | intros [Hnot _]; contradiction].
    + rewrite IH. tauto.
Qed.
End keys.

(** ** The records with a repeated identifier, as a frame *)

(** The frame [encontrar_duplicidades] returns on the exact path. *)
Lemma repeated_sku_by_key df r :
  repeated_sku df r ↔ (λ k, 2 ≤ multiplicity k (sku_column df)) (cell "sku" r).
Proof. reflexivity. Qed.

Lemma filter_repeated_sku_by_key df :
  filter (repeated_sku df) (rows df)
  = filter (λ r, (λ k, 2 ≤ multiplicity k (sku_column df)) (cell "sku" r)) (rows df).
Proof. apply list_filter_iff. intros r. reflexivity. Qed.

(** Inside the returned records an identifier occurs as often as in the
    frame when it is repeated there, and not at all otherwise. *)
Lemma multiplicity_in_repeated df k :
  multiplicity k (cell "sku" <$> filter (repeated_sku df) (rows df))
  = if decide (2 ≤ multiplicity k (sku_column df))
    then multiplicity k (sku_column df) else 0.
Proof.
  rewrite filter_repeated_sku_by_key.
  exact (multiplicity_filter_by_key (cell "sku")
           (λ k, 2 ≤ multiplicity k (sku_column df)) (rows df) k).
Qed.

Lemma filter_repeated_sku_nil df :
  filter (repeated_sku df) (rows df) = [] ↔ NoDup (sku_column df).
Proof.
  rewrite filter_none, NoDup_multiplicity, Forall_forall. unfold repeated_sku. split.
  - intros Hall k. destruct (decide (k ∈ sku_column df)) as [Hin|Hnotin].
    + apply list_elem_of_fmap in Hin. destruct Hin as (r & -> & Hr).
      specialize (Hall r Hr). lia.
    + assert (¬ 0 < multiplicity k (sku_column df)) by (rewrite multiplicity_pos; exact Hnotin).
      lia.
  - intros Hall r _. specialize (Hall (cell "sku" r)). lia.
Qed.

Lemma repeated_sku_in_result df r :
  r ∈ filter (repeated_sku df) (rows df) →
  2 ≤ multiplicity (cell "sku" r) (cell "sku" <$> filter (repeated_sku df) (rows df)).
Proof.
  intros Hin. apply list_elem_of_filter in Hin. destruct Hin as [Hrep _].
  rewrite multiplicity_in_repeated, decide_True by exact Hrep. exact Hrep.
Qed.

(** The method on the exact path, applied to its own result. *)
Lemma encontrar_duplicidades_sku_again colunas df :
  "sku" ∈ columns df →
  let d := mkDataFrame (columns df) (filter (repeated_sku df) (rows df)) in
  encontrar_duplicidades colunas "sku" d = (Returns d, d).
Proof.
  intros Hin d. rewrite encontrar_duplicidades_sku by exact Hin.
  unfold d at 4. cbn [columns rows]. do 3 f_equal.
  apply filter_all, Forall_forall. intros r Hr.
  apply (repeated_sku_in_result df r Hr).
Qed.

(** X1.  The returned records come in groups: none stands alone.  For every
    method and every frame the call returns, the result never has exactly
    one record, and each returned record has, at another position of the
    result, a record with the same ["sku"]. *)
Theorem duplicates_come_in_groups colunas metodo df :
  ∃ duplicados,
    encontrar_duplicidades colunas metodo df = (Returns duplicados, df) ∧
    length (rows duplicados) ≠ 1 ∧
    ∀ i r, rows duplicados !! i = Some r →
      ∃ j r', j ≠ i ∧ rows duplicados !! j = Some r' ∧ cell "sku" r' = cell "sku" r.
Proof.
  assert (Hgroups : ∀ d : DataFrame,
    (∀ i r, rows d !! i = Some r →
       ∃ j r', j ≠ i ∧ rows d !! j = Some r' ∧ cell "sku" r' = cell "sku" r) →
    length (rows d) ≠ 1).
  { intros d Hpartner Hlen. destruct (rows d) as [|r [|r' l]] eqn:Hrows; try discriminate.
    destruct (Hpartner 0 r eq_refl) as (j & r' & Hj & Hlook & _).
    destruct j as [|j]; [congruence | discriminate]. }
  destruct (decide (metodo = "sku" ∧ "sku" ∈ columns df)) as [[-> Hin]|Hnot].
  - eexists. split; [apply encontrar_duplicidades_sku; exact Hin|].
    cbn [rows].
    assert (Hpartner : ∀ i r, filter (repeated_sku df) (rows df) !! i = Some r →
      ∃ j r', j ≠ i ∧ filter (repeated_sku df) (rows df) !! j = Some r'
              ∧ cell "sku" r' = cell "sku" r).
    { intros i r Hi.
      assert (Hr : r ∈ filter (repeated_sku df) (rows df))
        by (apply list_elem_of_lookup; exists i; exact Hi).
      destruct (multiplicity_other_position
                  (cell "sku" <$> filter (repeated_sku df) (rows df)) i (cell "sku" r))
        as (j & Hj & Hlook).
      - rewrite list_lookup_fmap, Hi. reflexivity.
      - apply repeated_sku_in_result. exact Hr.
      - rewrite list_lookup_fmap in Hlook.
        destruct (filter (repeated_sku df) (rows df) !! j) as [r'|] eqn:Hr'; [|discriminate].
        exists j, r'. split; [exact Hj|]. split; [exact Hr'|].
        injection Hlook as Hcell. exact Hcell. }
    split; [|exact Hpartner].
    apply (Hgroups (mkDataFrame (columns df) (filter (repeated_sku df) (rows df)))).
    exact Hpartner.
  - exists pd_DataFrame. split.
    + destruct (decide (metodo = "sku")) as [->|Hne].
      * apply encontrar_duplicidades_no_sku. intros Hin. apply Hnot. split; [reflexivity | exact Hin].
      * apply encontrar_duplicidades_other_method. exact Hne.
    + split; [discriminate|]. intros i r Hi. destruct i; discriminate.
Qed.

(** X2.  On the exact path the result is empty exactly when no two records of
    the frame share their ["sku"] (missing identifiers compared as equal). *)
Theorem no_duplicates_iff_unique_sku colunas df :
  "sku" ∈ columns df →
  ∃ duplicados,
    encontrar_duplicidades colunas "sku" df = (Returns duplicados, df) ∧
    (rows duplicados = [] ↔ NoDup (sku_column df)).
Proof.
  intros Hin. eexists. split; [apply encontrar_duplicidades_sku; exact Hin|].
  apply filter_repeated_sku_nil.
Qed.

Lemma no_duplicates_iff_unique_sku_witness :
  ∃ duplicados,
    encontrar_duplicidades colunas_default "sku" tabela_nomes
    = (Returns duplicados, tabela_nomes) ∧
    rows duplicados = [].
Proof.
  destruct (no_duplicates_iff_unique_sku colunas_default tabela_nomes)
    as (duplicados & Hrun & Hiff); [constructor|].
  exists duplicados. split; [exact Hrun|].
  apply Hiff. apply (bool_decide_eq_true_1 (NoDup (sku_column tabela_nomes))).
  vm_compute. reflexivity.
Defined.

(** X3.  The method applied to its own result gives that result again, for
    every method and every list of key columns. *)
Theorem encontrar_duplicidades_idempotent colunas colunas' metodo df :
  ∃ duplicados,
    encontrar_duplicidades colunas metodo df = (Returns duplicados, df) ∧
    encontrar_duplicidades colunas' metodo duplicados = (Returns duplicados, duplicados).
Proof.
  destruct (decide (metodo = "sku" ∧ "sku" ∈ columns df)) as [[-> Hin]|Hnot].
  - eexists. split; [apply encontrar_duplicidades_sku; exact Hin|].
    apply encontrar_duplicidades_sku_again. exact Hin.
  - exists pd_DataFrame. split.
    + destruct (decide (metodo = "sku")) as [->|Hne].
      * apply encontrar_duplicidades_no_sku. intros Hin. apply Hnot. split; [reflexivity | exact Hin].
      * apply encontrar_duplicidades_other_method. exact Hne.
    + apply encontrar_duplicidades_no_sku. intros Hin. inversion Hin.
Qed.

(** X4.  Taking the returned records out of the frame leaves records with
    pairwise distinct ["sku"], on which the method finds nothing; the two
    parts together are the records of the frame. *)
Theorem removing_duplicates_leaves_unique_sku colunas df :
  "sku" ∈ columns df →
  let rest := mkDataFrame (columns df) (filter (λ r, ¬ repeated_sku df r) (rows df)) in
  ∃ duplicados,
    encontrar_duplicidades colunas "sku" df = (Returns duplicados, df) ∧
    rows duplicados ++ rows rest ≡ₚ rows df ∧
    NoDup (sku_column rest) ∧
    encontrar_duplicidades colunas "sku" rest
    = (Returns (mkDataFrame (columns df) []), rest).
Proof.
  intros Hin rest. eexists. split; [apply encontrar_duplicidades_sku; exact Hin|].
  cbn [rows]. split; [apply filter_app_complement|].
  assert (Hnodup : NoDup (sku_column rest)).
  { apply NoDup_multiplicity. intros k.
    pose (Q := λ k : value, ¬ 2 ≤ multiplicity k (sku_column df)).
    assert (Hm := multiplicity_filter_by_key (cell "sku") Q (rows df) k).
    match type of Hm with
    | multiplicity _ (_ <$> ?kept) = _ =>
        assert (Hf : filter (λ r, ¬ repeated_sku df r) (rows df) = kept)
          by (apply list_filter_iff; intros r; reflexivity)
    end.
    unfold sku_column at 1, column, rest. cbn [rows]. rewrite Hf, Hm.
    fold (column "sku" df). fold (sku_column df).
    destruct (decide (Q k)) as [Hq|Hq]; unfold Q in Hq; lia. }
  split; [exact Hnodup|].
  rewrite encontrar_duplicidades_sku by exact Hin.
  do 3 f_equal. apply filter_repeated_sku_nil. exact Hnodup.
Qed.

Lemma removing_duplicates_leaves_unique_sku_witness :
  NoDup (sku_column
           (mkDataFrame (columns tabela_ids)
              (filter (λ r, ¬ repeated_sku tabela_ids r) (rows tabela_ids)))).
Proof.
  destruct (removing_duplicates_leaves_unique_sku colunas_default tabela_ids)
    as (duplicados & _ & _ & Hnodup & _); [constructor|].
  exact Hnodup.
Defined.

(** ** The profile: distinct values and extreme rates *)

Lemma dropna_dropna (s : Series) : pandas.dropna (pandas.dropna s) = pandas.dropna s.
Proof. apply filter_all, dropna_not_null. Qed.

Lemma length_remove_dups_le {A : Type} `{EqDecision A} (l : list A) :
  length (remove_dups l) ≤ length l.
Proof.
  induction l as [|x l IH]; [reflexivity|].
  cbn [remove_dups]. destruct (decide_rel elem_of x l); simpl; lia.
Qed.

Lemma remove_dups_nil_iff {A : Type} `{EqDecision A} (l : list A) :
  remove_dups l = [] ↔ l = [].
Proof.
  split; [|intros ->; reflexivity].
  intros Hnil. destruct l as [|x l]; [reflexivity|].
  assert (Hin : x ∈ remove_dups (x :: l)) by (apply elem_of_remove_dups; constructor).
  rewrite Hnil in Hin. inversion Hin.
Qed.

Section exact_quotients.
Local Open Scope Z_scope.

Lemma new_location_exact nb_steps : new_location nb_steps 0 = loc_Exact.
Proof. unfold new_location. destruct (Z.even nb_steps); reflexivity. Qed.

(** [n / n] is the float [1.0], whatever the positive integer [n]. *)
Lemma SFdiv_self (n : positive) :
  SFdiv pyfloat.prec pyfloat.emax (S754_finite false n 0) (S754_finite false n 0)
  = S754_finite false 4503599627370496 (-52).
Proof.
  unfold SFdiv, SFdiv_core_binary.
  rewrite !Z.add_0_r, !Z.sub_diag.
  change (Z.min (fexp pyfloat.prec pyfloat.emax 0) 0) with (-53).
  change (0 - -53) with 53.
  cbv iota beta.
  assert (Hdiv : Z.div_eucl (Z.shiftl (Z.pos n) 53) (Z.pos n) = (2 ^ 53, 0)).
  { assert (Hq : Z.shiftl (Z.pos n) 53 / Z.pos n = 2 ^ 53).
    { rewrite Z.shiftl_mul_pow2, Z.mul_comm by lia. apply Z.div_mul. lia. }
    assert (Hr : Z.shiftl (Z.pos n) 53 mod Z.pos n = 0).
    { rewrite Z.shiftl_mul_pow2, Z.mul_comm by lia. apply Z.mod_mul. lia. }
    unfold Z.div in Hq. unfold Z.modulo in Hr.
    destruct (Z.div_eucl (Z.shiftl (Z.pos n) 53) (Z.pos n)) as [q r].
    rewrite Hq, Hr. reflexivity. }
  rewrite Hdiv, new_location_exact. vm_compute. reflexivity.
Qed.
End exact_quotients.

Lemma rendered_rate_full (n : nat) : 0 < n → rendered_rate n n = "100.0%".
Proof.
  intros Hn. unfold rendered_rate.
  destruct (Z.of_nat n) as [|p|p] eqn:Hp; [lia| |lia].
  cbn [pyfloat.of_Z]. rewrite SFdiv_self. vm_compute. reflexivity.
Qed.

Lemma rendered_rate_none (n : nat) : 0 < n → rendered_rate 0 n = "0.0%".
Proof.
  intros Hn. unfold rendered_rate.
  destruct (Z.of_nat n) as [|p|p] eqn:Hp; [lia| |lia].
  reflexivity.
Qed.

(** X5.  For a column of the frame, the counts of a returned profile are ordered,
    [valores_unicos <= preenchidos <= total] with [total > 0];
    [valores_unicos] is the number of distinct non-missing values of the
    column; and a column without any value is the one with no distinct value,
    no example, and as many missing cells as records. *)
Theorem profile_counts_are_ordered df nome_coluna p df' :
  nome_coluna ∈ columns df →
  analisar_coluna nome_coluna df = (Returns (Some p), df') →
  valores_unicos p ≤ preenchidos p ∧ preenchidos p ≤ total p ∧ 0 < total p ∧
  (∃ distinct : list value,
     NoDup distinct ∧
     (∀ v, v ∈ distinct ↔ v ≠ None ∧ v ∈ column nome_coluna df) ∧
     valores_unicos p = length distinct) ∧
  (preenchidos p = 0 ↔ valores_unicos p = 0) ∧
  (preenchidos p = 0 ↔ exemplos p = []) ∧
  (preenchidos p = 0 ↔ vazios p = total p).
Proof.
  intros Hin Hrun.
  destruct (analisar_coluna_returns_inv _ _ _ _ Hin Hrun) as (Hrows & _ & ->).
  cbn [valores_unicos preenchidos total exemplos vazios].
  unfold pandas.nunique. rewrite dropna_dropna, guarded_head, sum_isna_multiplicity.
  set (valores := pandas.dropna (column nome_coluna df)).
  assert (Hlen := length_dropna (column nome_coluna df)).
  rewrite length_column in Hlen. fold valores in Hlen.
  assert (Hle := length_remove_dups_le valores).
  assert (Hpos : 0 < length (rows df)) by (destruct (rows df); [contradiction | simpl; lia]).
  split; [exact Hle|]. split; [lia|]. split; [exact Hpos|].
  split.
  { exists (remove_dups valores). split; [apply NoDup_remove_dups|].
    split; [|reflexivity]. intros v.
    rewrite elem_of_remove_dups. unfold valores, pandas.dropna.
    rewrite list_elem_of_filter. reflexivity. }
  split.
  { rewrite !length_zero_iff_nil. symmetry. apply remove_dups_nil_iff. }
  split.
  { rewrite length_zero_iff_nil. split; [intros ->; reflexivity|].
    destruct valores as [|v valores']; [reflexivity | discriminate]. }
  lia.
Qed.

Lemma profile_counts_are_ordered_witness :
  ∃ p, analisar_coluna "categoria" tabela_categoria = (Returns (Some p), tabela_categoria) ∧
       valores_unicos p ≤ preenchidos p ∧ preenchidos p ≤ total p.
Proof.
  eexists. split; [vm_compute; reflexivity|].
  match goal with
  | |- valores_unicos ?p ≤ _ ∧ _ =>
      destruct (profile_counts_are_ordered tabela_categoria "categoria" p tabela_categoria)
        as (Hunicos & Hpreenchidos & _)
  end.
  - constructor.
  - vm_compute. reflexivity.
  - split; assumption.
Defined.

(** X6.  A column of a frame with records in which no cell is missing is
    reported at ["100.0%"], and a column in which every cell is missing at
    ["0.0%"]. *)
Theorem rate_of_full_and_empty_columns df nome_coluna :
  nome_coluna ∈ columns df → rows df ≠ [] →
  ∃ p, analisar_coluna nome_coluna df = (Returns (Some p), df) ∧
       (None ∉ column nome_coluna df → taxa_preenchimento p = "100.0%") ∧
       (Forall (λ v, v = None) (column nome_coluna df) → taxa_preenchimento p = "0.0%").
Proof.
  intros Hin Hrows. eexists. split; [apply analisar_coluna_rows; assumption|].
  cbn [taxa_preenchimento].
  assert (Hlen := length_dropna (column nome_coluna df)).
  rewrite length_column in Hlen.
  assert (Hpos : 0 < length (rows df)) by (destruct (rows df); [contradiction | simpl; lia]).
  split.
  - intros Hfull.
    assert (Hz : ¬ 0 < multiplicity None (column nome_coluna df))
      by (rewrite multiplicity_pos; exact Hfull).
    replace (length (pandas.dropna (column nome_coluna df))) with (length (rows df)) by lia.
    apply rendered_rate_full. exact Hpos.
  - intros Hnone.
    assert (Hdrop : pandas.dropna (column nome_coluna df) = []).
    { apply filter_none. eapply Forall_impl; [exact Hnone|].
      intros v -> Hne. apply Hne. reflexivity. }
    rewrite Hdrop. apply rendered_rate_none. exact Hpos.
Qed.

Lemma rate_of_full_and_empty_columns_witness :
  ∃ p, analisar_coluna "sku" tabela_ids = (Returns (Some p), tabela_ids) ∧
       taxa_preenchimento p = "100.0%".
Proof.
  destruct (rate_of_full_and_empty_columns tabela_ids "sku") as (p & Hrun & Hfull & _).
  - constructor.
  - discriminate.
  - exists p. split; [exact Hrun|]. apply Hfull.
    apply (bool_decide_eq_true_1 (None ∉ column "sku" tabela_ids)). vm_compute. reflexivity.
Defined.

(** ** Reordering the records *)

Lemma multiplicity_Permutation {K : Type} `{EqDecision K} (k : K) (l1 l2 : list K) :
  l1 ≡ₚ l2 → multiplicity k l1 = multiplicity k l2.
Proof. intros Hperm. unfold multiplicity. rewrite Hperm. reflexivity. Qed.

Lemma length_remove_dups_Permutation {A : Type} `{EqDecision A} (l1 l2 : list A) :
  l1 ≡ₚ l2 → length (remove_dups l1) = length (remove_dups l2).
Proof.
  intros Hperm. apply Permutation_length.
  apply NoDup_Permutation; [apply NoDup_remove_dups | apply NoDup_remove_dups |].
  intros x. rewrite !elem_of_remove_dups, Hperm. reflexivity.
Qed.

Lemma column_Permutation c df1 df2 :
  rows df1 ≡ₚ rows df2 → column c df1 ≡ₚ column c df2.
Proof. intros Hperm. unfold column. rewrite Hperm. reflexivity. Qed.

(** X7.  The counts, the rate and the number of distinct values of a profile do
    not depend on the order of the records: on a frame with the same columns
    and the same records in another order the method returns a profile that
    differs at most in its examples. *)
Theorem profile_ignores_row_order df1 df2 nome_coluna p :
  columns df2 = columns df1 → rows df1 ≡ₚ rows df2 →
  nome_coluna ∈ columns df1 →
  analisar_coluna nome_coluna df1 = (Returns (Some p), df1) →
  ∃ p', analisar_coluna nome_coluna df2 = (Returns (Some p'), df2) ∧
        total p' = total p ∧ preenchidos p' = preenchidos p ∧
        vazios p' = vazios p ∧ taxa_preenchimento p' = taxa_preenchimento p ∧
        valores_unicos p' = valores_unicos p ∧
        length (exemplos p') = length (exemplos p).
Proof.
  intros Hcols Hperm Hin Hrun.
  destruct (analisar_coluna_returns_inv _ _ _ _ Hin Hrun) as (Hrows & _ & ->).
  assert (Hrows2 : rows df2 ≠ []).
  { intros Hnil. rewrite Hnil in Hperm. apply Permutation_nil_r in Hperm. contradiction. }
  eexists. split; [apply analisar_coluna_rows; [rewrite Hcols; exact Hin | exact Hrows2]|].
  cbn [total preenchidos vazios taxa_preenchimento valores_unicos exemplos].
  assert (Hcol := column_Permutation nome_coluna df1 df2 Hperm).
  assert (Hdrop : pandas.dropna (column nome_coluna df2) ≡ₚ pandas.dropna (column nome_coluna df1)).
  { unfold pandas.dropna. rewrite Hcol. reflexivity. }
  assert (Hn : length (rows df2) = length (rows df1)) by (rewrite Hperm; reflexivity).
  assert (Hfilled : length (pandas.dropna (column nome_coluna df2))
                    = length (pandas.dropna (column nome_coluna df1)))
    by (rewrite Hdrop; reflexivity).
  rewrite !guarded_head, !length_take, !sum_isna_multiplicity, Hn, Hfilled.
  rewrite (multiplicity_Permutation None _ _ Hcol).
  unfold pandas.nunique. rewrite !dropna_dropna.
  rewrite (length_remove_dups_Permutation _ _ Hdrop).
  repeat split; reflexivity.
Qed.

Lemma profile_ignores_row_order_witness :
  ∃ p', analisar_coluna "categoria"
          (mkDataFrame (columns tabela_categoria) (reverse (rows tabela_categoria)))
        = (Returns (Some p'),
           mkDataFrame (columns tabela_categoria) (reverse (rows tabela_categoria))) ∧
        taxa_preenchimento p' = "60.0%".
Proof.
  destruct (profile_ignores_row_order tabela_categoria
              (mkDataFrame (columns tabela_categoria) (reverse (rows tabela_categoria)))
              "categoria"
              (mkAnalise 5 3 2 "60.0%" 2 [Some (VStr "X"); Some (VStr "X"); Some (VStr "Y")]))
    as (p' & Hrun & _ & _ & _ & Hrate & _).
  - reflexivity.
  - cbn [rows]. symmetry. apply reverse_Permutation.
  - constructor.
  - vm_compute. reflexivity.
  - exists p'. split; [exact Hrun | exact Hrate].
Defined.

(** X8.  The records returned on the exact path do not depend on the order of the
    records either: the same records in another order give the same returned
    records, up to their order. *)
Theorem duplicates_ignore_row_order colunas df1 df2 :
  columns df2 = columns df1 → rows df1 ≡ₚ rows df2 → "sku" ∈ columns df1 →
  ∃ d1 d2,
    encontrar_duplicidades colunas "sku" df1 = (Returns d1, df1) ∧
    encontrar_duplicidades colunas "sku" df2 = (Returns d2, df2) ∧
    rows d1 ≡ₚ rows d2 ∧ length (rows d1) = length (rows d2).
Proof.
  intros Hcols Hperm Hin. do 2 eexists.
  split; [apply encontrar_duplicidades_sku; exact Hin|].
  split; [apply encontrar_duplicidades_sku; rewrite Hcols; exact Hin|].
  cbn [rows].
  assert (Hrows : filter (repeated_sku df1) (rows df1) ≡ₚ filter (repeated_sku df2) (rows df2)).
  { rewrite (list_filter_iff (repeated_sku df2) (repeated_sku df1)).
    - rewrite Hperm. reflexivity.
    - intros r. unfold repeated_sku, sku_column.
      rewrite (multiplicity_Permutation _ _ _ (column_Permutation "sku" df1 df2 Hperm)).
      reflexivity. }
  split; [exact Hrows | rewrite Hrows; reflexivity].
Qed.

Lemma duplicates_ignore_row_order_witness :
  ∃ d1 d2,
    encontrar_duplicidades colunas_default "sku" tabela_ids = (Returns d1, tabela_ids) ∧
    encontrar_duplicidades colunas_default "sku"
      (mkDataFrame (columns tabela_ids) (reverse (rows tabela_ids)))
    = (Returns d2, mkDataFrame (columns tabela_ids) (reverse (rows tabela_ids))) ∧
    length (rows d1) = length (rows d2).
Proof.
  destruct (duplicates_ignore_row_order colunas_default tabela_ids
              (mkDataFrame (columns tabela_ids) (reverse (rows tabela_ids))))
    as (d1 & d2 & Hrun1 & Hrun2 & _ & Hlen).
  - reflexivity.
  - cbn [rows]. symmetry. apply reverse_Permutation.
  - constructor.
  - exists d1, d2. split; [exact Hrun1|]. split; [exact Hrun2 | exact Hlen].
Defined.

(** * The dashboard page *)

(** ** Running a page *)

Lemma page_bind_returns {A B : Type} (m : page A) (f : A → page B) s a s' :
  m s = (Returns a, s') → (m ≫= f) s = f a s'.
Proof. intros Hm. unfold mbind, page_bind. rewrite Hm. reflexivity. Qed.

Lemma page_bind_raises {A B : Type} (m : page A) (f : A → page B) s e s' :
  m s = (Raises e, s') → (m ≫= f) s = (Raises e, s').
Proof. intros Hm. unfold mbind, page_bind. rewrite Hm. reflexivity. Qed.

Lemma on_df_returns {A : Type} (m : py A) s a :
  m (frame s) = (Returns a, frame s) → on_df m s = (Returns a, s).
Proof. intros Hm. unfold on_df. rewrite Hm. destruct s; reflexivity. Qed.

Lemma show_run w s : show w s = (Returns tt, mkRun (frame s) (shown s ++ [w])).
Proof. reflexivity. Qed.

(** ** The overview block *)

(** The number the block shows as [SKUs Únicos]. *)
Lemma visao_geral_run s :
  let df := frame s in
  let sku_unicos :=
    if bool_decide ("sku" ∈ columns df)
    then Z.of_nat (pandas.nunique (sku_column df)) else 0%Z in
  visao_geral s
  = (Returns tt,
     mkRun df
       (shown s ++
        [ streamlit.subheader "Visão Geral da Base";
          streamlit.layout_columns 3;
          streamlit.metric 1 "Total de Itens" (Z.of_nat (length (rows df))) None;
          streamlit.metric 2 "Colunas" (Z.of_nat (length (columns df))) None;
          streamlit.metric 3 "SKUs Únicos" sku_unicos
            (Some (str_int (Z.of_nat (length (rows df)) - sku_unicos)
                   +:+ " possíveis dups")) ])).
Proof.
  intros df sku_unicos. subst df sku_unicos. destruct s as [df ws].
  unfold visao_geral, mbind, page_bind, mret, page_ret, show, on_df,
    pandas.df_len, pandas.df_columns, pandas.df_getitem.
  cbn [frame shown].
  destruct (bool_decide ("sku" ∈ columns df)) eqn:Hsku;
    repeat (cbn [frame shown]; rewrite ?Hsku);
    rewrite <- !app_assoc; reflexivity.
Qed.

(** ** Counting by distinct value *)

Section counting.
Context {A : Type} `{EqDecision A}.
Implicit Types (l d : list A).

Lemma length_filter_complement (P : A → Prop) `{!∀ x, Decision (P x)} l :
  length (filter P l) + length (filter (λ x, ¬ P x) l) = length l.
Proof. rewrite <- length_app, (filter_app_complement P l). reflexivity. Qed.

Lemma multiplicity_filter_ne v w l :
  w ≠ v → multiplicity w (filter (λ x, ¬ x = v) l) = multiplicity w l.
Proof.
  intros Hne. unfold multiplicity. rewrite list_filter_filter.
  f_equal. apply list_filter_iff. intros x. split; [tauto|].
  intros ->. split; [reflexivity | exact Hne].
Qed.

(** The length of a list, summed value by value over a duplicate-free list
    that covers it. *)
Lemma length_by_value d : ∀ l,
  NoDup d → (∀ x, x ∈ l → x ∈ d) →
  length l = sum_list ((λ v, multiplicity v l) <$> d).
Proof.
  induction d as [|v d IH]; intros l Hnodup Hcover.
  - destruct l as [|x l]; [reflexivity|].
    specialize (Hcover x ltac:(constructor)). inversion Hcover.
  - apply NoDup_cons in Hnodup. destruct Hnodup as [Hv Hnodup].
    rewrite fmap_cons. cbn [sum_list].
    rewrite <- (length_filter_complement (λ x, x = v) l).
    fold (multiplicity v l). f_equal.
    rewrite (IH (filter (λ x, ¬ x = v) l) Hnodup).
    + f_equal. apply list_fmap_ext. intros i w Hw.
      apply multiplicity_filter_ne. intros ->.
      apply Hv. apply list_elem_of_lookup. exists i. exact Hw.
    + intros x Hx. apply list_elem_of_filter in Hx. destruct Hx as [Hne Hx].
      specialize (Hcover x Hx). apply elem_of_cons in Hcover.
      destruct Hcover as [->|Hin]; [contradiction | exact Hin].
Qed.

Lemma length_filter_by_value (P : A → Prop) `{!∀ x, Decision (P x)} l :
  length (filter P l) = sum_list ((λ x, if decide (P x) then 1 else 0) <$> l).
Proof.
  induction l as [|x l IH]; [reflexivity|].
  rewrite filter_cons, fmap_cons. cbn [sum_list].
  destruct (decide (P x)); simpl; rewrite IH; reflexivity.
Qed.

Lemma remove_dups_filter (P : A → Prop) `{!∀ x, Decision (P x)} l :
  remove_dups (filter P l) = filter P (remove_dups l).
Proof.
  induction l as [|x l IH]; [reflexivity|].
  rewrite filter_cons. cbn [remove_dups].
  destruct (decide (P x)) as [Hx|Hx].
  - cbn [remove_dups].
    destruct (decide_rel elem_of x (filter P l)) as [Hin|Hin];
      destruct (decide_rel elem_of x l) as [Hin'|Hin'].
    + exact IH.
    + apply list_elem_of_filter in Hin. destruct Hin as [_ Hin]. contradiction.
    + exfalso. apply Hin. apply list_elem_of_filter. split; assumption.
    + rewrite filter_cons, decide_True by exact Hx. rewrite IH. reflexivity.
  - destruct (decide_rel elem_of x l) as [Hin'|Hin'].
    + exact IH.
    + rewrite filter_cons, decide_False by exact Hx. exact IH.
Qed.

Lemma length_remove_dups_NoDup l : length (remove_dups l) = length l ↔ NoDup l.
Proof.
  induction l as [|x l IH].
  - split; [constructor | reflexivity].
  - cbn [remove_dups]. rewrite NoDup_cons.
    assert (Hle := length_remove_dups_le l).
    destruct (decide_rel elem_of x l) as [Hin|Hin]; simpl.
    + split; [lia | intros [Hnot _]; contradiction].
    + rewrite <- IH. split; [intros Heq; split; [exact Hin | lia] | intros [_ Heq]; lia].
Qed.

(** Three sums over the same list, compared entry by entry. *)
Lemma sum_list_double_bound (g u m : A → nat) d :
  (∀ x, x ∈ d → g x + 2 * u x ≤ 2 * m x) →
  sum_list (g <$> d) + 2 * sum_list (u <$> d) ≤ 2 * sum_list (m <$> d).
Proof.
  induction d as [|x d IH]; intros Hall; [simpl; lia|].
  rewrite !fmap_cons. simpl.
  assert (Hx := Hall x ltac:(constructor)).
  assert (Hd := IH (λ y Hy, Hall y ltac:(constructor; exact Hy))).
  lia.
Qed.

Lemma sum_list_split_bound (g u m : A → nat) d :
  (∀ x, x ∈ d → m x ≤ g x + u x) →
  sum_list (m <$> d) ≤ sum_list (g <$> d) + sum_list (u <$> d).
Proof.
  induction d as [|x d IH]; intros Hall; [simpl; lia|].
  rewrite !fmap_cons. simpl.
  assert (Hx := Hall x ltac:(constructor)).
  assert (Hd := IH (λ y Hy, Hall y ltac:(constructor; exact Hy))).
  lia.
Qed.
End counting.

(** The records with a repeated identifier, the distinct identifiers and the
    records, counted against each other. *)
Lemma duplicates_vs_distinct df :
  length (filter (repeated_sku df) (rows df)) + 2 * pandas.nunique (sku_column df)
  ≤ 2 * length (rows df) ∧
  (None ∉ sku_column df →
   length (rows df)
   ≤ length (filter (repeated_sku df) (rows df)) + pandas.nunique (sku_column df)).
Proof.
  set (col := sku_column df).
  set (dup := filter (repeated_sku df) (rows df)).
  set (d := remove_dups col).
  set (m := λ v : value, multiplicity v col).
  set (g := λ v : value, if decide (2 ≤ m v) then m v else 0).
  set (u := λ v : value, if decide (v ≠ None) then 1 else 0).
  assert (Hnodup : NoDup d) by apply NoDup_remove_dups.
  assert (Hlen : length (rows df) = sum_list (m <$> d)).
  { rewrite <- (length_column "sku" df). fold (sku_column df). fold col.
    apply length_by_value; [exact Hnodup|].
    intros x Hx. apply elem_of_remove_dups. exact Hx. }
  assert (Hdup : length dup = sum_list (g <$> d)).
  { rewrite <- (length_fmap (cell "sku") dup).
    rewrite (length_by_value d (cell "sku" <$> dup) Hnodup).
    - f_equal. apply list_fmap_ext. intros i v _. apply multiplicity_in_repeated.
    - intros x Hx. apply elem_of_remove_dups.
      apply list_elem_of_fmap in Hx. destruct Hx as (r & -> & Hr).
      apply list_elem_of_filter in Hr. destruct Hr as [_ Hr].
      apply list_elem_of_fmap_2. exact Hr. }
  assert (Huniq : pandas.nunique col = sum_list (u <$> d)).
  { unfold pandas.nunique, pandas.dropna. rewrite remove_dups_filter.
    apply length_filter_by_value. }
  assert (Hm : ∀ v, v ∈ d → 1 ≤ m v).
  { intros v Hv. unfold d in Hv. rewrite elem_of_remove_dups in Hv.
    unfold m. apply multiplicity_pos. exact Hv. }
  rewrite Hlen, Hdup, Huniq. split.
  - apply sum_list_double_bound. intros v Hv. specialize (Hm v Hv).
    unfold g, u. destruct (decide (2 ≤ m v)), (decide (v ≠ None)); lia.
  - intros Hfull. apply sum_list_split_bound. intros v Hv. specialize (Hm v Hv).
    assert (Hne : v ≠ None).
    { intros ->. apply Hfull. unfold d in Hv. rewrite elem_of_remove_dups in Hv. exact Hv. }
    unfold g, u. rewrite (decide_True (P := v ≠ None)) by exact Hne.
    destruct (decide (2 ≤ m v)); lia.
Qed.

Lemma nunique_full_iff (s : Series) :
  pandas.nunique s = length s ↔ NoDup s ∧ None ∉ s.
Proof.
  unfold pandas.nunique.
  assert (Hle := length_remove_dups_le (pandas.dropna s)).
  assert (Hlen := length_dropna s).
  split.
  - intros Heq.
    assert (Hz : multiplicity None s = 0) by lia.
    assert (Hnone : None ∉ s) by (rewrite <- multiplicity_pos; lia).
    assert (Hdrop : pandas.dropna s = s).
    { apply filter_all, Forall_forall. intros v Hv ->. contradiction. }
    rewrite Hdrop in Heq. split; [apply length_remove_dups_NoDup; exact Heq | exact Hnone].
  - intros [Hnodup Hnone].
    assert (Hdrop : pandas.dropna s = s).
    { apply filter_all, Forall_forall. intros v Hv ->. contradiction. }
    rewrite Hdrop. apply length_remove_dups_NoDup. exact Hnodup.
Qed.

Lemma visao_geral_last s :
  last (shown (visao_geral s).2)
  = Some (streamlit.metric 3 "SKUs Únicos"
            (if bool_decide ("sku" ∈ columns (frame s))
             then Z.of_nat (pandas.nunique (sku_column (frame s))) else 0%Z)
            (Some (str_int
                     (Z.of_nat (length (rows (frame s)))
                      - (if bool_decide ("sku" ∈ columns (frame s))
                         then Z.of_nat (pandas.nunique (sku_column (frame s))) else 0%Z))
                   +:+ " possíveis dups"))).
Proof.
  rewrite visao_geral_run. cbn [snd shown].
  match goal with
  | |- last (app ?ws [?a; ?b; ?c; ?d; ?e]) = _ =>
      change (app ws [a; b; c; d; e]) with (app ws (app [a; b; c; d] [e]))
  end.
  rewrite app_assoc. apply last_snoc.
Qed.

(** X9.  The overview block never raises, leaves the frame as it is, and ends
    with the metric [SKUs Únicos] whose delta is [len(df) - sku_unicos]
    possible duplicates.  That number is never negative; it is [len(df)]
    when the frame has no ["sku"] column; and with the column it is zero
    exactly when no identifier is missing and no two records share one. *)
Theorem overview_possible_dups s :
  ∃ (sku_unicos delta : Z),
    (visao_geral s).1 = Returns tt ∧ frame (visao_geral s).2 = frame s ∧
    last (shown (visao_geral s).2)
    = Some (streamlit.metric 3 "SKUs Únicos" sku_unicos
              (Some (str_int delta +:+ " possíveis dups"))) ∧
    (delta = Z.of_nat (length (rows (frame s))) - sku_unicos)%Z ∧
    (0 ≤ delta ≤ Z.of_nat (length (rows (frame s))))%Z ∧
    ("sku" ∉ columns (frame s) →
       sku_unicos = 0%Z ∧ delta = Z.of_nat (length (rows (frame s)))) ∧
    ("sku" ∈ columns (frame s) →
       (delta = 0%Z ↔ NoDup (sku_column (frame s)) ∧ None ∉ sku_column (frame s))).
Proof.
  do 2 eexists.
  split; [rewrite visao_geral_run; reflexivity|].
  split; [rewrite visao_geral_run; reflexivity|].
  split; [apply visao_geral_last|].
  split; [reflexivity|].
  destruct (duplicates_vs_distinct (frame s)) as [Hbound _].
  assert (Hiff := nunique_full_iff (sku_column (frame s))).
  unfold sku_column at 2 in Hiff. rewrite length_column in Hiff.
  destruct (decide ("sku" ∈ columns (frame s))) as [Hin|Hnot].
  - rewrite bool_decide_eq_true_2 by exact Hin.
    split; [lia|]. split; [intros Hnot; contradiction|].
    intros _. rewrite <- Hiff. lia.
  - rewrite bool_decide_eq_false_2 by exact Hnot.
    split; [lia|]. split; [intros _; split; lia|].
    intros Hin. contradiction.
Qed.

(** X10.  The delta of the overview bounds what exact duplicate detection finds:
    with a ["sku"] column, the records [encontrar_duplicidades] returns are
    at most twice the possible duplicates shown, none when the delta is
    zero, and, when no identifier is missing, at least as many as the
    delta. *)
Theorem possible_dups_bound_duplicates s colunas :
  "sku" ∈ columns (frame s) →
  ∃ (sku_unicos delta : Z) duplicados,
    last (shown (visao_geral s).2)
    = Some (streamlit.metric 3 "SKUs Únicos" sku_unicos
              (Some (str_int delta +:+ " possíveis dups"))) ∧
    encontrar_duplicidades colunas "sku" (frame s) = (Returns duplicados, frame s) ∧
    (Z.of_nat (length (rows duplicados)) ≤ 2 * delta)%Z ∧
    (delta = 0%Z → rows duplicados = []) ∧
    (None ∉ sku_column (frame s) → (delta ≤ Z.of_nat (length (rows duplicados)))%Z).
Proof.
  intros Hin. do 3 eexists.
  split; [apply visao_geral_last|].
  split; [apply encontrar_duplicidades_sku; exact Hin|].
  cbn [rows]. rewrite bool_decide_eq_true_2 by exact Hin.
  destruct (duplicates_vs_distinct (frame s)) as [Hbound Hfull].
  split; [lia|]. split.
  - intros Hzero. apply length_zero_iff_nil. lia.
  - intros Hnone. specialize (Hfull Hnone). lia.
Qed.

Lemma possible_dups_bound_duplicates_witness :
  ∃ duplicados,
    last (shown (visao_geral (mkRun tabela_ids [])).2)
    = Some (streamlit.metric 3 "SKUs Únicos" 2 (Some "1 possíveis dups")) ∧
    encontrar_duplicidades colunas_default "sku" tabela_ids
    = (Returns duplicados, tabela_ids) ∧
    length (rows duplicados) = 2.
Proof.
  destruct (possible_dups_bound_duplicates (mkRun tabela_ids []) colunas_default)
    as (sku_unicos & delta & duplicados & Hlast & Hrun & _); [constructor|].
  exists duplicados. split; [vm_compute; reflexivity|]. split; [exact Hrun|].
  vm_compute in Hrun. injection Hrun as <-. reflexivity.
Defined.

(** ** The duplicates block *)

Lemma frames_empty_rows d :
  columns d ≠ [] → frames.empty d = bool_decide (rows d = []).
Proof.
  intros Hcols. unfold frames.empty. apply bool_decide_ext. tauto.
Qed.

Lemma multiplicity_le_length {K : Type} `{EqDecision K} (k : K) (l : list K) :
  multiplicity k l ≤ length l.
Proof. unfold multiplicity. apply length_filter. Qed.

Lemma repeated_rows_at_least_two df :
  filter (repeated_sku df) (rows df) ≠ [] →
  2 ≤ length (filter (repeated_sku df) (rows df)).
Proof.
  intros Hne. destruct (filter (repeated_sku df) (rows df)) as [|r l] eqn:Hdup;
    [contradiction|].
  assert (Hr : r ∈ filter (repeated_sku df) (rows df)) by (rewrite Hdup; constructor).
  apply repeated_sku_in_result in Hr. rewrite Hdup in Hr.
  etransitivity; [exact Hr|].
  etransitivity; [apply multiplicity_le_length|]. rewrite length_fmap. reflexivity.
Qed.

(** The mask and the selection of lines 49, on the session's frame. *)
Lemma on_df_duplicated_sku s :
  "sku" ∈ columns (frame s) →
  (on_df (pandas.df_duplicated ["sku"]) ≫= λ mask, on_df (pandas.df_getitem_mask mask)) s
  = (Returns (mkDataFrame (columns (frame s))
                (filter (repeated_sku (frame s)) (rows (frame s)))), s).
Proof.
  intros Hin.
  erewrite page_bind_returns
    by (apply on_df_returns, df_duplicated_sku; exact Hin).
  apply on_df_returns.
  rewrite (df_getitem_mask_duplicated (λ r, [cell "sku" r])).
  do 3 f_equal. apply list_filter_iff. intros r. unfold repeated_sku.
  rewrite singleton_key_multiplicity. reflexivity.
Qed.

Lemma duplicidades_por_sku_no_sku to_csv s :
  "sku" ∉ columns (frame s) →
  duplicidades_por_sku to_csv s
  = (Returns tt, mkRun (frame s) (shown s ++ [duplicates_subheader])).
Proof.
  intros Hnot. unfold duplicidades_por_sku.
  erewrite page_bind_returns by apply show_run.
  erewrite page_bind_returns by (apply on_df_returns; reflexivity).
  cbn [frame]. rewrite bool_decide_eq_false_2 by exact Hnot. reflexivity.
Qed.

(** With a ["sku"] column, the block in terms of the records with a repeated
    identifier. *)
Lemma duplicidades_por_sku_run to_csv s :
  "sku" ∈ columns (frame s) →
  let d := mkDataFrame (columns (frame s))
             (filter (repeated_sku (frame s)) (rows (frame s))) in
  duplicidades_por_sku to_csv s
  = if bool_decide (rows d = [])
    then (Returns tt,
          mkRun (frame s) (shown s ++ [duplicates_subheader; no_duplicates_success]))
    else match frames.getitem_labels ["sku"; "nome"; "categoria"] d with
         | Raises e =>
             (Raises e,
              mkRun (frame s)
                (shown s ++ [duplicates_subheader; duplicates_warning (length (rows d))]))
         | Returns tabela =>
             (Returns tt,
              mkRun (frame s)
                (shown s ++ [duplicates_subheader;
                             duplicates_warning (length (rows d));
                             streamlit.dataframe (frames.head 20 tabela);
                             duplicates_download (to_csv d)]))
         end.
Proof.
  intros Hin d. unfold duplicidades_por_sku.
  erewrite page_bind_returns by apply show_run.
  erewrite page_bind_returns by (apply on_df_returns; reflexivity).
  cbn [frame]. rewrite bool_decide_eq_true_2 by exact Hin.
  erewrite page_bind_returns by (apply on_df_duplicated_sku; exact Hin).
  cbn [frame]. fold d.
  rewrite frames_empty_rows
    by (unfold d; cbn [columns]; intros Hnil; rewrite Hnil in Hin; inversion Hin).
  destruct (bool_decide (rows d = [])); cbn [negb].
  - rewrite show_run. cbn [frame shown]. rewrite <- app_assoc. reflexivity.
  - erewrite page_bind_returns by apply show_run.
    unfold frames.len.
    destruct (frames.getitem_labels ["sku"; "nome"; "categoria"] d) as [tabela|e].
    + erewrite page_bind_returns by reflexivity.
      erewrite page_bind_returns by apply show_run.
      rewrite show_run. cbn [frame shown]. rewrite <- !app_assoc. reflexivity.
    + erewrite page_bind_raises by reflexivity.
      cbn [frame shown]. rewrite <- !app_assoc. reflexivity.
Qed.

Lemma getitem_labels_three d :
  "sku" ∈ columns d →
  match frames.getitem_labels ["sku"; "nome"; "categoria"] d with
  | Returns tabela =>
      "nome" ∈ columns d ∧ "categoria" ∈ columns d ∧
      tabela = mkDataFrame ["sku"; "nome"; "categoria"]
                 (frames.restrict ["sku"; "nome"; "categoria"] <$> rows d)
  | Raises e =>
      ∃ k, e = KeyError k ∧ k ∈ ["nome"; "categoria"] ∧ k ∉ columns d
  end.
Proof.
  intros Hsku. unfold frames.getitem_labels, pandas.missing_label.
  rewrite filter_cons, decide_False by (intros Hnot; apply Hnot, Hsku).
  rewrite !filter_cons, filter_nil.
  destruct (decide ("nome" ∉ columns d)) as [Hnome|Hnome];
    destruct (decide ("categoria" ∉ columns d)) as [Hcat|Hcat]; cbn [head].
  - exists "nome". split; [reflexivity|]. split; [constructor | exact Hnome].
  - exists "nome". split; [reflexivity|]. split; [constructor | exact Hnome].
  - exists "categoria". split; [reflexivity|]. split; [do 2 constructor | exact Hcat].
  - split; [apply dec_stable; exact Hnome|]. split; [apply dec_stable; exact Hcat|].
    reflexivity.
Qed.

Lemma cell_restrict labels c (r : row) :
  cell c (frames.restrict labels r) = if bool_decide (c ∈ labels) then cell c r else None.
Proof.
  unfold cell, frames.restrict. rewrite map_lookup_filter.
  destruct (r !! c) as [v|]; cbn.
  - case_bool_decide as Hc.
    + rewrite option_guard_True by exact Hc. reflexivity.
    + rewrite option_guard_False by exact Hc. reflexivity.
  - case_bool_decide; reflexivity.
Qed.

(** X11.  The duplicates block raises exactly when the frame has a ["sku"] column
    with a repeated identifier and lacks ["nome"] or ["categoria"].  The
    exception is then the [KeyError] of the missing label, the frame is left
    as it was, and the warning with the count is already on the page.
    Without ["sku"] column the block shows its subheader and nothing else. *)
Theorem duplicates_block_key_error to_csv s :
  let outcome_of_block := fst (duplicidades_por_sku to_csv s) in
  let after := snd (duplicidades_por_sku to_csv s) in
  ((∃ e, outcome_of_block = Raises e)
   ↔ "sku" ∈ columns (frame s) ∧ ¬ NoDup (sku_column (frame s)) ∧
     ("nome" ∉ columns (frame s) ∨ "categoria" ∉ columns (frame s))) ∧
  (∀ e, outcome_of_block = Raises e →
     ∃ k n, e = KeyError k ∧ k ∈ ["nome"; "categoria"] ∧ (k ∉ columns (frame s)) ∧
            (2 ≤ n) ∧
            after = mkRun (frame s)
                      (shown s ++ [duplicates_subheader; duplicates_warning n])) ∧
  ("sku" ∉ columns (frame s) →
     outcome_of_block = Returns tt ∧
     after = mkRun (frame s) (shown s ++ [duplicates_subheader])).
Proof.
  intros outcome_of_block after. subst outcome_of_block after.
  destruct (decide ("sku" ∈ columns (frame s))) as [Hin|Hnot].
  - rewrite (duplicidades_por_sku_run to_csv s Hin).
    set (d := mkDataFrame (columns (frame s))
                (filter (repeated_sku (frame s)) (rows (frame s)))).
    assert (Hlabels := getitem_labels_three d Hin).
    assert (Hnil := filter_repeated_sku_nil (frame s)).
    assert (Htwo := repeated_rows_at_least_two (frame s)).
    change (filter (repeated_sku (frame s)) (rows (frame s))) with (rows d) in Hnil, Htwo.
    change (columns d) with (columns (frame s)) in Hlabels.
    destruct (bool_decide (rows d = [])) eqn:Hempty.
    + apply bool_decide_eq_true_1 in Hempty. cbn [fst snd].
      split; [|split].
      * split; [intros [e He]; discriminate|].
        intros (_ & Hdup & _). exfalso. apply Hdup, Hnil, Hempty.
      * intros e He. discriminate.
      * intros Hnot. contradiction.
    + apply bool_decide_eq_false_1 in Hempty.
      destruct (frames.getitem_labels ["sku"; "nome"; "categoria"] d) as [tabela|e];
        cbn [fst snd].
      * destruct Hlabels as (Hnome & Hcat & _). split; [|split].
        -- split; [intros [e He]; discriminate|].
           intros (_ & _ & [Hmiss|Hmiss]); contradiction.
        -- intros e He. discriminate.
        -- intros Hnot. contradiction.
      * destruct Hlabels as (k & -> & Hk & Hmiss). split; [|split].
        -- split; [|intros _; eexists; reflexivity].
           intros _. split; [exact Hin|]. split; [intros Hnodup; apply Hempty, Hnil, Hnodup|].
           apply elem_of_cons in Hk. destruct Hk as [->|Hk]; [left; exact Hmiss|].
           apply list_elem_of_singleton in Hk. subst k. right. exact Hmiss.
        -- intros e He. injection He as <-.
           exists k, (length (rows d)).
           split; [reflexivity|]. split; [exact Hk|]. split; [exact Hmiss|].
           split; [apply Htwo, Hempty | reflexivity].
        -- intros Hnot. contradiction.
  - rewrite (duplicidades_por_sku_no_sku to_csv s Hnot). cbn [fst snd].
    split; [|split].
    + split; [intros [e He]; discriminate | intros (Hin & _); contradiction].
    + intros e He. discriminate.
    + intros _. split; reflexivity.
Qed.

(** X12.  With the columns ["sku"], ["nome"] and ["categoria"], the duplicates
    block reports what [encontrar_duplicidades] returns on the exact path:
    a success message when it returns no record; otherwise the warning with
    their number (at least 2), a table of the first 20 of them restricted to
    the three columns, and the export of all of them. *)
Theorem duplicates_block_reports_duplicates to_csv s colunas :
  "sku" ∈ columns (frame s) → "nome" ∈ columns (frame s) →
  "categoria" ∈ columns (frame s) →
  ∃ duplicados,
    encontrar_duplicidades colunas "sku" (frame s) = (Returns duplicados, frame s) ∧
    (rows duplicados = [] →
       duplicidades_por_sku to_csv s
       = (Returns tt,
          mkRun (frame s) (shown s ++ [duplicates_subheader; no_duplicates_success]))) ∧
    (rows duplicados ≠ [] →
       ∃ tabela,
         duplicidades_por_sku to_csv s
         = (Returns tt,
            mkRun (frame s)
              (shown s ++ [duplicates_subheader;
                           duplicates_warning (length (rows duplicados));
                           streamlit.dataframe tabela;
                           duplicates_download (to_csv duplicados)])) ∧
         2 ≤ length (rows duplicados) ∧
         columns tabela = ["sku"; "nome"; "categoria"] ∧
         length (rows tabela) = min 20 (length (rows duplicados)) ∧
         ∀ i r, rows tabela !! i = Some r →
           ∃ r0, rows duplicados !! i = Some r0 ∧
                 ∀ c, cell c r
                      = if bool_decide (c ∈ ["sku"; "nome"; "categoria"])
                        then cell c r0 else None).
Proof.
  intros Hsku Hnome Hcat. eexists.
  split; [apply encontrar_duplicidades_sku; exact Hsku|].
  rewrite (duplicidades_por_sku_run to_csv s Hsku).
  set (d := mkDataFrame (columns (frame s))
              (filter (repeated_sku (frame s)) (rows (frame s)))).
  assert (Hlabels := getitem_labels_three d Hsku).
  assert (Htwo := repeated_rows_at_least_two (frame s)).
  change (filter (repeated_sku (frame s)) (rows (frame s))) with (rows d) in Htwo.
  change (columns d) with (columns (frame s)) in Hlabels.
  split.
  - intros Hempty. rewrite bool_decide_eq_true_2 by exact Hempty. reflexivity.
  - intros Hdup. rewrite bool_decide_eq_false_2 by exact Hdup.
    destruct (frames.getitem_labels ["sku"; "nome"; "categoria"] d) as [tabela|e].
    + destruct Hlabels as (_ & _ & ->).
      eexists. split; [reflexivity|]. split; [apply Htwo, Hdup|].
      split; [reflexivity|]. cbn [frames.head rows columns].
      split; [rewrite length_take, length_fmap; reflexivity|].
      intros i r Hi. apply lookup_take_Some in Hi. destruct Hi as [Hi _].
      rewrite list_lookup_fmap in Hi.
      destruct (rows d !! i) as [r0|] eqn:Hr0; [|discriminate].
      injection Hi as <-. exists r0. split; [reflexivity|].
      intros c. apply cell_restrict.
    + destruct Hlabels as (k & _ & Hk & Hmiss). exfalso.
      apply elem_of_cons in Hk. destruct Hk as [->|Hk]; [contradiction|].
      apply list_elem_of_singleton in Hk. subst k. contradiction.
Qed.

Lemma duplicates_block_reports_duplicates_witness :
  let df := mkDataFrame ["sku"; "nome"; "categoria"] (rows tabela_ids) in
  ∃ tabela,
    duplicidades_por_sku (λ _, "") (mkRun df [])
    = (Returns tt,
       mkRun df [duplicates_subheader; duplicates_warning 2;
                 streamlit.dataframe tabela; duplicates_download ""]) ∧
    length (rows tabela) = 2.
Proof.
  intros df.
  destruct (duplicates_block_reports_duplicates (λ _, "") (mkRun df []) colunas_default)
    as (duplicados & Hrun & _ & Hshown).
  - constructor.
  - do 1 constructor. constructor.
  - do 2 constructor. constructor.
  - vm_compute in Hrun. injection Hrun as <-.
    destruct Hshown as (tabela & Hblock & _ & _ & Hlen & _); [discriminate|].
    exists tabela. split; [exact Hblock | exact Hlen].
Defined.

(** ** The opening of the page *)

(** X13.  The page goes on only with a session frame that has a record and a
    column, and otherwise stops after one warning.  On a frame it lets
    through, [analisar_coluna] never raises: it returns the sentinel for an
    absent column and a profile for a column of the frame. *)
Theorem open_page_guards_the_profile (session_state : gmap string DataFrame) :
  match open_page session_state with
  | stopped on_page =>
      on_page = (page_header ++ [no_data_warning])%list ∧
      (session_state !! "df" = None ∨
       ∃ df, session_state !! "df" = Some df ∧ (rows df = [] ∨ columns df = []))
  | loaded on_page df =>
      on_page = page_header ∧ session_state !! "df" = Some df ∧
      rows df ≠ [] ∧ columns df ≠ [] ∧
      ∀ nome_coluna,
        ∃ result, analisar_coluna nome_coluna df = (Returns result, df) ∧
                  (result = None ↔ nome_coluna ∉ columns df)
  end.
Proof.
  unfold open_page. destruct (session_state !! "df") as [df|] eqn:Hdf.
  - unfold frames.empty. case_bool_decide as Hempty.
    + split; [reflexivity|]. right. exists df. split; [reflexivity | exact Hempty].
    + assert (Hrows : rows df ≠ []) by tauto.
      assert (Hcols : columns df ≠ []) by tauto.
      split; [reflexivity|]. split; [reflexivity|].
      split; [exact Hrows|]. split; [exact Hcols|].
      intros c. destruct (decide (c ∈ columns df)) as [Hin|Hnot].
      * eexists. split; [apply analisar_coluna_rows; assumption|].
        split; [discriminate | intros Hnot; contradiction].
      * exists None. split; [apply analisar_coluna_absent; exact Hnot|].
        split; [intros _; exact Hnot | reflexivity].
  - split; [reflexivity|]. left. reflexivity.
Qed.
